(** * The Hacker News plugin API server: listing and search ranking

    A shallow embedding of [api-server/utils.py] and [api-server/models.py].

    - Python exceptions are values of [Py.exn], and a computation that may
      raise lives in the error monad [Py.result].
    - The database is a pair of tables ([items], [kids]); a SQL query of the
      source is the list function that evaluates it on the tables.
    - Python numbers (the integer columns, the provider's distances and the
      floats the ranking computes) are embedded in the rationals [Q]:
      arithmetic is exact, [x / y] raises [ZeroDivisionError] exactly when
      [y == 0], and the rounding and overflow of IEEE doubles are not part
      of the model.
    - Python [str] is [string]; [split], [lower] and [strip] are given for
      ASCII text. *)

From Stdlib Require Import ZArith QArith Qminmax List String Ascii Bool Lia Lqa.
From Stdlib Require Import Sorting.Permutation Sorting.Sorted.
Import ListNotations.

Local Open Scope Z_scope.

(** ** Python exceptions and the error monad *)

Module Py.

Inductive exn : Type :=
| ZeroDivisionError
| ValueError
| TypeError
| IndexError
| UnboundLocalError.

Inductive result (A : Type) : Type :=
| Ok (a : A)
| Raise (e : exn).

Arguments Ok {A} a.
Arguments Raise {A} e.

Definition bind {A B : Type} (m : result A) (k : A -> result B) : result B :=
  match m with
  | Ok a => k a
  | Raise e => Raise e
  end.

(** [xs[i]] for a non-negative index. *)
Definition index {A : Type} (xs : list A) (i : nat) : result A :=
  match nth_error xs i with
  | Some x => Ok x
  | None => Raise IndexError
  end.

(** [xs[:n]]: a negative bound counts from the end. *)
Definition slice_to {A : Type} (xs : list A) (n : Z) : list A :=
  if n <? 0
  then firstn (Z.to_nat (Z.of_nat (List.length xs) + n)) xs
  else firstn (Z.to_nat n) xs.

End Py.

Notation "x <- m ;; k" := (Py.bind m (fun x => k))
  (at level 61, m at next level, right associativity).
Notation "' pat <- m ;; k" := (Py.bind m (fun x => match x with pat => k end))
  (at level 61, pat pattern, m at next level, right associativity).

(** ** Strings *)

Module Str.

(** [str.isspace] on an ASCII character: tab, line feed, vertical tab,
    form feed, carriage return, the four separators 28..31 and the space. *)
Definition is_space (c : ascii) : bool :=
  let n := nat_of_ascii c in
  ((9 <=? n) && (n <=? 13) || (28 <=? n) && (n <=? 32))%nat.

Definition lower_char (c : ascii) : ascii :=
  let n := nat_of_ascii c in
  if ((65 <=? n) && (n <=? 90))%nat then ascii_of_nat (n + 32) else c.

(** [s.lower()] *)
Fixpoint lower (s : string) : string :=
  match s with
  | EmptyString => EmptyString
  | String c r => String (lower_char c) (lower r)
  end.

(** The scanner behind [s.split()]: [cur] is the word being read, in
    reverse.  Runs of white space separate words and produce no empty
    word. *)
Definition rev_word (cur : list ascii) : string :=
  string_of_list_ascii (rev cur).

Definition flush (cur : list ascii) : list string :=
  match cur with
  | [] => []
  | _ :: _ => [rev_word cur]
  end.

Fixpoint split_from (cur : list ascii) (s : string) : list string :=
  match s with
  | EmptyString => flush cur
  | String c r =>
      if is_space c
      then flush cur ++ split_from [] r
      else split_from (c :: cur) r
  end.

(** [s.split()] *)
Definition split (s : string) : list string := split_from [] s.

Fixpoint lstrip (s : string) : string :=
  match s with
  | EmptyString => EmptyString
  | String c r => if is_space c then lstrip r else s
  end.

Definition reverse (s : string) : string :=
  string_of_list_ascii (rev (list_ascii_of_string s)).

(** [s.strip()] *)
Definition strip (s : string) : string :=
  reverse (lstrip (reverse (lstrip s))).

(** [set(words)] as a duplicate-free list, [a.intersection(b)] and [len]. *)
Definition to_set (ws : list string) : list string := nodup string_dec ws.

Definition mem (w : string) (ws : list string) : bool :=
  existsb (String.eqb w) ws.

Definition intersection (a b : list string) : list string :=
  filter (fun w => mem w b) a.

End Str.

(** ** A stable sort

    [sort lt] keeps the relative order of the elements that [lt] does not
    separate.  It stands for [ORDER BY] on the rows of a query and for
    Python's [sorted]. *)

Module Stable.

Section Sort.
Context {A : Type} (lt : A -> A -> bool).

Fixpoint insert (x : A) (l : list A) : list A :=
  match l with
  | [] => [x]
  | y :: r => if lt y x then y :: insert x r else x :: y :: r
  end.

Definition sort (l : list A) : list A := fold_right insert [] l.

(** The order the sort establishes: [x] may stand before [y] when [y] is
    not below [x]. *)
Definition before (x y : A) : Prop := lt y x = false.
End Sort.

End Stable.

(** ** models.py *)

Module ItemType.
Inductive t : Type := comment | job | story | poll | pollopt.

Definition eqb (a b : t) : bool :=
  match a, b with
  | comment, comment | job, job | story, story
  | poll, poll | pollopt, pollopt => true
  | _, _ => false
  end.
End ItemType.

Module SortBy.
Inductive t : Type := score | time.
End SortBy.

(** [utils.py] reads this enumeration under the name [SortOrder]. *)
Module Order.
Inductive t : Type := asc | desc.
End Order.

(** The table [items].  Every column but the primary key is nullable. *)
Module Item.
Record t : Type := mk {
  id : Z;
  time : option Z;
  title : option string;
  url : option string;
  text : option string;
  score : option Z;
  type : option ItemType.t;
  by_ : option string;
  (** Modelled from the spec: [descendants], the optional comment count
      that [get_items] filters on, is a column of the class [Item] that
      [utils.py] imports from [schema], which is not among the sources. *)
  descendants : option Z
}.
End Item.

(** The association table [kids]. *)
Module Kids.
Record row : Type := mk {
  item : option Z;
  kid : option Z;
  display_order : option Z
}.
End Kids.

(** What a session reads: the rows of the two tables, in storage order. *)
Record Session : Type := {
  items : list Item.t;
  kids : list Kids.row
}.

(** ** SQL, as the queries of [utils.py] use it *)

Module Sql.

(** A comparison with NULL is not true. *)
Definition cmp {A B : Type} (op : A -> B -> bool) (col : option A) (v : B) : bool :=
  match col with
  | Some c => op c v
  | None => false
  end.

(** [column == value] as SQLAlchemy renders it: [column = value], and
    [column IS NULL] when the value is [None]. *)
Definition eq_or_is_null {A : Type} (eqb : A -> A -> bool)
           (col : option A) (v : option A) : bool :=
  match v with
  | Some x => cmp eqb col x
  | None => match col with None => true | Some _ => false end
  end.

(** The order of a nullable integer column: NULL sorts before every
    value.  [ORDER BY] leaves the order of the rows with equal keys to the
    database; here they keep the order they had. *)
Definition key_lt (a b : option Z) : bool :=
  match a, b with
  | None, None => false
  | None, Some _ => true
  | Some _, None => false
  | Some x, Some y => x <? y
  end.

Definition order_by_asc {A : Type} (key : A -> option Z) (rows : list A) : list A :=
  Stable.sort (fun a b => key_lt (key a) (key b)) rows.

Definition order_by_desc {A : Type} (key : A -> option Z) (rows : list A) : list A :=
  Stable.sort (fun a b => key_lt (key b) (key a)) rows.

(** [OFFSET k] and [LIMIT n] as SQLite evaluates them: a negative offset
    skips nothing, and a negative limit is no limit. *)
Definition offset {A : Type} (k : Z) (rows : list A) : list A :=
  skipn (Z.to_nat k) rows.

Definition limit {A : Type} (n : Z) (rows : list A) : list A :=
  if n <? 0 then rows else firstn (Z.to_nat n) rows.

(** [SELECT ... FROM items WHERE id = story_id] *)
Definition items_where_id (session : Session) (story_id : Z) : list Item.t :=
  filter (fun i => Item.id i =? story_id) (items session).

(** [items i JOIN kids k ON i.id = k.kid] *)
Definition join_kids (session : Session) : list (Item.t * Kids.row) :=
  flat_map
    (fun k => map (fun i => (i, k))
                  (filter (fun i => cmp Z.eqb (Kids.kid k) (Item.id i))
                          (items session)))
    (kids session).

(** [... WHERE k.item = parent AND i.type = 'comment'
     ORDER BY k.display_order] *)
Definition ordered_comment_kids (session : Session) (parent : Z)
  : list (Item.t * Kids.row) :=
  order_by_asc (fun r => Kids.display_order (snd r))
    (filter
       (fun r => cmp Z.eqb (Kids.item (snd r)) parent
                 && cmp ItemType.eqb (Item.type (fst r)) ItemType.comment)
       (join_kids session)).

(** [... LIMIT n] *)
Definition comment_kid_rows (session : Session) (parent : Z) (n : Z)
  : list (Item.t * Kids.row) :=
  limit n (ordered_comment_kids session parent).

(** [SELECT i.* FROM items i JOIN kids k ON i.id = k.kid
     WHERE k.item = parent AND i.type = 'comment'
     ORDER BY k.display_order LIMIT n] *)
Definition comment_kids (session : Session) (parent : Z) (n : Z) : list Item.t :=
  map fst (comment_kid_rows session parent n).

(** [cursor.fetchone()] *)
Definition fetchone {A : Type} (rows : list A) : option A := hd_error rows.

End Sql.

(** ** utils.py *)

Module Utils.

Import Py.

Definition DEFAULT_NUM : Z := 10.
Definition MAX_NUM : Z := 50.

(** *** Loops

    [for x in xs: body] over a state [s]; an exception raised by the body
    leaves the loop. *)
Fixpoint for_ {A S : Type} (xs : list A) (s : S) (body : S -> A -> result S)
  : result S :=
  match xs with
  | [] => Ok s
  | x :: r => s' <- body s x ;; for_ r s' body
  end.

(** [[f(x) for x in xs]] *)
Definition comprehension {A B : Type} (f : A -> result B) (xs : list A)
  : result (list B) :=
  for_ xs [] (fun acc x => y <- f x ;; Ok (acc ++ [y])).

(** [enumerate(xs)] *)
Definition enumerate {A : Type} (xs : list A) : list (nat * A) :=
  combine (seq 0 (List.length xs)) xs.

(** *** get_items *)

(** [if arg is not None: items_query = items_query.filter(p)] *)
Definition filter_if {B : Type} (arg : option B) (p : B -> Item.t -> bool)
           (items_query : list Item.t) : list Item.t :=
  match arg with
  | Some v => filter (p v) items_query
  | None => items_query
  end.

(** [getattr(Item, sort_by.value)] *)
Definition sort_column (sort_by : SortBy.t) : Item.t -> option Z :=
  match sort_by with
  | SortBy.score => Item.score
  | SortBy.time => Item.time
  end.

Section Listing.

(** [column.contains(query)] is rendered as a [LIKE] that the database
    evaluates; its result on a non-NULL column is taken as given. *)
Variable contains : string -> string -> bool.

(** The query as it stands before [offset] and [limit] are applied
    (lines 72 to 102): the filtered rows, ordered. *)
Definition items_query (session : Session)
           (item_type : option ItemType.t) (by_ : option string)
           (before_time after_time : option Z)
           (min_score max_score : option Z)
           (min_comments max_comments : option Z)
           (sort_by : option SortBy.t) (sort_order : option Order.t)
           (query : option string) : list Item.t :=
  let q := filter (fun i => Sql.eq_or_is_null ItemType.eqb (Item.type i) item_type)
                  (items session) in
  (* Filtering *)
  let q := filter_if by_ (fun v i => Sql.cmp String.eqb (Item.by_ i) v) q in
  let q := filter_if before_time (fun v i => Sql.cmp Z.leb (Item.time i) v) q in
  let q := filter_if after_time (fun v i => Sql.cmp Z.geb (Item.time i) v) q in
  let q := filter_if min_score (fun v i => Sql.cmp Z.geb (Item.score i) v) q in
  let q := filter_if max_score (fun v i => Sql.cmp Z.leb (Item.score i) v) q in
  let q := filter_if min_comments (fun v i => Sql.cmp Z.geb (Item.descendants i) v) q in
  let q := filter_if max_comments (fun v i => Sql.cmp Z.leb (Item.descendants i) v) q in
  let q := filter_if query
             (fun v i => Sql.cmp contains (Item.title i) v
                         || Sql.cmp contains (Item.text i) v) q in
  (* Sorting *)
  match sort_by with
  | Some sort_by =>
      match sort_order with
      | Some Order.asc => Sql.order_by_asc (sort_column sort_by) q
      | Some Order.desc => Sql.order_by_desc (sort_column sort_by) q
      | None => q
      end
  | None => q
  end.

Definition get_items (session : Session)
           (item_type : option ItemType.t) (by_ : option string)
           (before_time after_time : option Z)
           (min_score max_score : option Z)
           (min_comments max_comments : option Z)
           (sort_by : option SortBy.t) (sort_order : option Order.t)
           (skip : Z) (limit : Z) (query : option string) : list Item.t :=
  let limit := if limit >? MAX_NUM then MAX_NUM else limit in
  let q := items_query session item_type by_ before_time after_time
             min_score max_score min_comments max_comments
             sort_by sort_order query in
  (* Limit & skip *)
  Sql.limit limit (Sql.offset skip q).

(** A call [get_items(session, **kw)]: a keyword that is left out takes
    the default of the signature, [None] for the filters and the sort,
    [0] for [skip] and [10] for [limit]. *)
Record Keywords : Type := {
  kw_item_type : option ItemType.t;
  kw_by : option string;
  kw_before_time : option Z;
  kw_after_time : option Z;
  kw_min_score : option Z;
  kw_max_score : option Z;
  kw_min_comments : option Z;
  kw_max_comments : option Z;
  kw_sort_by : option SortBy.t;
  kw_sort_order : option Order.t;
  kw_skip : option Z;
  kw_limit : option Z;
  kw_query : option string
}.

Definition or_default (arg : option Z) (d : Z) : Z :=
  match arg with
  | Some v => v
  | None => d
  end.

(** The limit that reaches the query of a call. *)
Definition effective_limit (kw : Keywords) : Z :=
  let limit := or_default (kw_limit kw) 10 in
  if limit >? MAX_NUM then MAX_NUM else limit.

Definition call_get_items (session : Session) (kw : Keywords) : list Item.t :=
  get_items session (kw_item_type kw) (kw_by kw)
            (kw_before_time kw) (kw_after_time kw)
            (kw_min_score kw) (kw_max_score kw)
            (kw_min_comments kw) (kw_max_comments kw)
            (kw_sort_by kw) (kw_sort_order kw)
            (or_default (kw_skip kw) 0) (or_default (kw_limit kw) 10)
            (kw_query kw).

End Listing.

(** *** normalize *)

Local Open Scope Q_scope.

Definition Qltb (a b : Q) : bool :=
  match a ?= b with
  | Lt => true
  | _ => false
  end.

(** [min(values)] and [max(values)]: of the elements that compare equal
    the first is kept; an empty argument raises [ValueError]. *)
Definition py_min (values : list Q) : result Q :=
  match values with
  | [] => Raise ValueError
  | x :: r => Ok (fold_left (fun best v => if Qltb v best then v else best) r x)
  end.

Definition py_max (values : list Q) : result Q :=
  match values with
  | [] => Raise ValueError
  | x :: r => Ok (fold_left (fun best v => if Qltb best v then v else best) r x)
  end.

(** [a / b] *)
Definition truediv (a b : Q) : result Q :=
  if Qeq_bool b 0 then Raise ZeroDivisionError else Ok (a / b).

Definition normalize (values : list Q) (reverse : bool) : result (list Q) :=
  min_val <- py_min values ;;
  max_val <- py_max values ;;
  normalized_values <-
    comprehension (fun value => truediv (value - min_val) (max_val - min_val))
                  values ;;
  let normalized_values :=
    if reverse
    then map (fun value => 1 - value) normalized_values
    else normalized_values in
  Ok normalized_values.

(** *** compute_rankings *)

(** A row of [expanded]: [(story_id, distance, title, score, age)]. *)
Definition Expanded : Type := (Z * Q * string * Z * Z)%type.

(** [SELECT title, score, time FROM items WHERE id = story_id] followed
    by [fetchone()]. *)
Definition fetch_title_score_time (session : Session) (story_id : Z)
  : option (option string * option Z * option Z) :=
  option_map (fun i => (Item.title i, Item.score i, Item.time i))
             (Sql.fetchone (Sql.items_where_id session story_id)).

(** Lines 154 to 164.  Unpacking the [None] that [fetchone] returns for
    an id without a row raises [TypeError]. *)
Definition expand (session : Session) (results : list (Z * Q))
  : result (list Expanded) :=
  for_ results []
    (fun expanded '(story_id, distance) =>
       match fetch_title_score_time session story_id with
       | None => Raise TypeError
       | Some (title, score, age) =>
           match title with
           | None => Ok expanded
           | Some title =>
               let score := match score with None => 1%Z | Some s => s end in
               let age := match age with None => 0%Z | Some a => a end in
               Ok (expanded ++ [(story_id, distance, title, score, age)])
           end
       end).

(** Lines 166 and 167: the rows are transposed by [zip] into the three
    tuples [scores], [ages] and [distances].  [zip] of no argument yields
    nothing, and unpacking nothing into three names raises
    [ValueError]. *)
Definition unzip3 (rows : list (Q * Q * Q)) : result (list Q * list Q * list Q) :=
  match rows with
  | [] => Raise ValueError
  | _ :: _ =>
      Ok (map (fun r => fst (fst r)) rows,
          map (fun r => snd (fst r)) rows,
          map snd rows)
  end.

(** [len(query_words.intersection(title_words))] *)
Definition matches (query title : string) : Z :=
  let query_words := Str.to_set (map Str.lower (Str.split query)) in
  let title_words := Str.to_set (map Str.lower (Str.split title)) in
  Z.of_nat (List.length (Str.intersection query_words title_words)).

(** [w1, w2, w3, w4 = 0.4, 0.4, 0.1, 0.1] *)
Definition w1 : Q := 4 # 10.
Definition w2 : Q := 4 # 10.
Definition w3 : Q := 1 # 10.
Definition w4 : Q := 1 # 10.

(** Comparison of the tuples [(score_rank, story_id)]. *)
Definition tuple_lt (a b : Q * Z) : bool :=
  if Qeq_bool (fst a) (fst b) then (snd a <? snd b)%Z else Qltb (fst a) (fst b).

(** [sorted(rankings, reverse=True)] *)
Definition sorted_reverse (rankings : list (Q * Z)) : list (Q * Z) :=
  Stable.sort (fun a b => tuple_lt b a) rankings.

(** Lines 174 to 184. *)
Definition rank_loop (query : string) (expanded : list Expanded)
           (normalized_scores normalized_distances normalized_ages : list Q)
  : result (list (Q * Z)) :=
  for_ (enumerate expanded) []
    (fun rankings '(i, (story_id, distance, title, _, _)) =>
       let matches := matches query title in
       ns <- index normalized_scores i ;;
       nd <- index normalized_distances i ;;
       na <- index normalized_ages i ;;
       let score_rank :=
         w1 * ns + w2 * nd + w3 * na + w4 * inject_Z matches in
       Ok (rankings ++ [(score_rank, story_id)])).

Definition compute_rankings (session : Session) (query : string)
           (results : list (Z * Q)) : result (list (Q * Z)) :=
  expanded <- expand session results ;;
  '(scores, ages, distances) <-
    unzip3 (map (fun '(_, distance, _, score, age) =>
                   (inject_Z score, inject_Z age, distance))
                expanded) ;;
  normalized_scores <- normalize scores false ;;
  normalized_ages <- normalize ages false ;;
  normalized_distances <- normalize distances true ;;
  rankings <- rank_loop query expanded
                normalized_scores normalized_distances normalized_ages ;;
  Ok (sorted_reverse rankings).

(** *** get_comments_text *)

(** A text that passes [if item.text:]. *)
Definition nonempty (text : option string) : option string :=
  match text with
  | Some (String c r) => Some (String c r)
  | _ => None
  end.

(** The body of the loop over [comments] (lines 201 to 212). *)
Definition comment_step (session : Session) (comment_text : list string)
           (comment : Item.t) : list string :=
  match nonempty (Item.text comment) with
  | Some text =>
      let comment_text := comment_text ++ [text] in
      let child_row :=
        Sql.fetchone (Sql.comment_kids session (Item.id comment) 1) in
      match child_row with
      | Some child_comment =>
          match nonempty (Item.text child_comment) with
          | Some child_text => comment_text ++ [child_text]
          | None => comment_text
          end
      | None => comment_text
      end
  | None => comment_text
  end.

(** Top 10 kid comments, and first child comment of each. *)
Definition get_comments_text (session : Session) (story_id : Z) : list string :=
  let comments := Sql.comment_kids session story_id 10 in
  fold_left (comment_step session) comments [].

(** *** semantic_search *)

(** A story of the answer: the row, and the comment preview when one
    was asked for. *)
Record Story : Type := {
  story : Item.t;
  comment_text : option (list string)
}.

(** The body of the loop over the ranked results (lines 130 to 138).  The
    state is the list [stories] and the variable [cursor], which is
    unbound before the first turn. *)
Definition story_step (session : Session) (exclude_comments : bool)
           (st : list Story * option (list Item.t)) (result : Q * Z)
  : list Story * option (list Item.t) :=
  let '(stories, _) := st in
  let story_id := snd result in
  let cursor := Sql.items_where_id session story_id in
  match Sql.fetchone cursor with
  | Some story_row =>
      let story :=
        {| story := story_row;
           comment_text :=
             if exclude_comments then None
             else Some (get_comments_text session story_id) |} in
      (stories ++ [story], Some cursor)
  | None => (stories, Some cursor)
  end.

(** Lines 127 to 140: [cursor.close()] after the loop raises
    [UnboundLocalError] when the loop had no turn. *)
Definition fetch_stories (session : Session) (results : list (Q * Z))
           (exclude_comments : bool) : result (list Story) :=
  let '(stories, cursor) :=
    fold_left (story_step session exclude_comments) results ([], None) in
  match cursor with
  | Some _ => Ok stories
  | None => Raise UnboundLocalError
  end.

(** [provider] is the similarity service behind [url]: the decoded answer
    to [requests.get(url, params={"query": query})]. *)
Definition semantic_search (provider : string -> list (Z * Q))
           (session : Session) (query : string) (limit : Z)
           (exclude_comments : bool) : result (list Story) :=
  let query := Str.strip query in
  (* Perform semantic search *)
  let results := provider query in
  (* Rank results *)
  results <- compute_rankings session query results ;;
  let results := slice_to results limit in
  (* Fetch stories and their comments *)
  fetch_stories session results exclude_comments.

(** The session is a handle on a database that other processes write to,
    and the ranking and the enrichment read it at different moments.
    [semantic_search_at] is [semantic_search] with the tables given as the
    ranking reads them ([session]) and as the enrichment reads them
    ([session']); [semantic_search] is the case where nothing was written
    in between. *)
Definition semantic_search_at (provider : string -> list (Z * Q))
           (session session' : Session) (query : string) (limit : Z)
           (exclude_comments : bool) : result (list Story) :=
  let query := Str.strip query in
  let results := provider query in
  results <- compute_rankings session query results ;;
  let results := slice_to results limit in
  fetch_stories session' results exclude_comments.

End Utils.

(** ** The words of the specification

    What the specification says of the ranking and of the comment preview,
    written down independently of the code, for the code to be compared
    with. *)

Module Spec.

Local Open Scope Q_scope.

(** [m] is an element of [values] and no element is below it. *)
Definition is_min (m : Q) (values : list Q) : Prop :=
  In m values /\ Forall (fun v => m <= v) values.

(** [m] is an element of [values] and no element is above it. *)
Definition is_max (m : Q) (values : list Q) : Prop :=
  In m values /\ Forall (fun v => v <= m) values.

(** Min-max normalization, [(x - min) / (max - min)]. *)
Definition min_max (lo hi x : Q) : Q := (x - lo) / (hi - lo).

(** A vector normalized between [lo] and [hi], inverted in the reverse
    mode. *)
Definition normalized (lo hi : Q) (reverse : bool) (values : list Q) : list Q :=
  map (fun v => if reverse then 1 - min_max lo hi v else min_max lo hi v) values.

(** The fields of a surviving candidate. *)
Definition row_id (row : Utils.Expanded) : Z :=
  let '(story_id, _, _, _, _) := row in story_id.
Definition row_distance (row : Utils.Expanded) : Q :=
  let '(_, distance, _, _, _) := row in distance.
Definition row_title (row : Utils.Expanded) : string :=
  let '(_, _, title, _, _) := row in title.
Definition row_score (row : Utils.Expanded) : Q :=
  let '(_, _, _, score, _) := row in inject_Z score.
Definition row_age (row : Utils.Expanded) : Q :=
  let '(_, _, _, _, age) := row in inject_Z age.

(** The fused score,
    [0.4 normScore + 0.4 (1 - normDistance) + 0.1 normAge + 0.1 overlap]. *)
Definition fused_score (norm_score norm_distance norm_age : Q) (overlap : Z) : Q :=
  (4 # 10) * norm_score + (4 # 10) * (1 - norm_distance)
  + (1 # 10) * norm_age + (1 # 10) * inject_Z overlap.

(** The bounds of the three signals over the surviving candidates. *)
Record Bounds : Type := {
  score_min : Q; score_max : Q;
  age_min : Q; age_max : Q;
  distance_min : Q; distance_max : Q
}.

Definition bounds_of (b : Bounds) (expanded : list Utils.Expanded) : Prop :=
  is_min (score_min b) (map row_score expanded) /\
  is_max (score_max b) (map row_score expanded) /\
  is_min (age_min b) (map row_age expanded) /\
  is_max (age_max b) (map row_age expanded) /\
  is_min (distance_min b) (map row_distance expanded) /\
  is_max (distance_max b) (map row_distance expanded).

Definition norm_score (b : Bounds) (row : Utils.Expanded) : Q :=
  min_max (score_min b) (score_max b) (row_score row).
Definition norm_age (b : Bounds) (row : Utils.Expanded) : Q :=
  min_max (age_min b) (age_max b) (row_age row).
Definition norm_distance (b : Bounds) (row : Utils.Expanded) : Q :=
  min_max (distance_min b) (distance_max b) (row_distance row).

(** The pair [(fused score, item id)] of a surviving candidate. *)
Definition ranked (query : string) (b : Bounds) (row : Utils.Expanded) : Q * Z :=
  (fused_score (norm_score b row) (norm_distance b row) (norm_age b row)
               (Utils.matches query (row_title row)),
   row_id row).


(** The words of a text: lower-cased, split at white space. *)
Definition words (s : string) : list string := map Str.lower (Str.split s).

(** Ascending display order; a missing order comes first. *)
Definition display_le (a b : option Z) : Prop :=
  match a, b with
  | None, _ => True
  | Some _, None => False
  | Some x, Some y => (x <= y)%Z
  end.

(** The comment children of [parent], by ascending display order. *)
Definition children (session : Session) (parent : Z) : list Item.t :=
  map fst (Sql.ordered_comment_kids session parent).

(** The first child comment of a comment. *)
Definition first_child (session : Session) (comment : Item.t) : option Item.t :=
  hd_error (children session (Item.id comment)).

(** The fragments of one top-level comment: its text when it is not empty,
    followed by the text of its first child when that is not empty. *)
Definition fragments (session : Session) (comment : Item.t) : list string :=
  match Utils.nonempty (Item.text comment) with
  | None => []
  | Some text =>
      text ::
      match first_child session comment with
      | None => []
      | Some child =>
          match Utils.nonempty (Item.text child) with
          | None => []
          | Some child_text => [child_text]
          end
      end
  end.

(** The preview of a story: the fragments of its first ten comments. *)
Definition preview (session : Session) (story_id : Z) : list string :=
  flat_map (fragments session) (firstn 10 (children session story_id)).

(** What the first loop of [compute_rankings] does with one candidate: it
    fails when the id has no row, drops the candidate when the title is
    missing, and otherwise keeps it with the defaults for a missing score
    and a missing age. *)
Definition survivor (session : Session) (candidate : Z * Q)
  : option (list Utils.Expanded) :=
  match Utils.fetch_title_score_time session (fst candidate) with
  | None => None
  | Some (None, _, _) => Some []
  | Some (Some title, score, age) =>
      Some [ (fst candidate, snd candidate, title,
              match score with None => 1%Z | Some s => s end,
              match age with None => 0%Z | Some a => a end) ]
  end.

(** The item store has a row for [id]. *)
Definition has_row (session : Session) (id : Z) : bool :=
  existsb (fun i => (Item.id i =? id)%Z) (items session).

(** The story that the enrichment of [id] yields, if any. *)
Definition enriched (session : Session) (exclude_comments : bool) (id : Z)
  : list Utils.Story :=
  match find (fun i => (Item.id i =? id)%Z) (items session) with
  | Some row =>
      [ {| Utils.story := row;
           Utils.comment_text :=
             if exclude_comments then None
             else Some (Utils.get_comments_text session id) |} ]
  | None => []
  end.

End Spec.

(** ** Concrete sessions *)

Module Examples.

Local Open Scope string_scope.

Definition a_story (id : Z) (title : string) (score time : Z) : Item.t :=
  Item.mk id (Some time) (Some title) None None (Some score)
          (Some ItemType.story) None None.

Definition a_comment (id : Z) (text : option string) : Item.t :=
  Item.mk id None None None text None (Some ItemType.comment) None None.

Definition a_kid (item kid display_order : Z) : Kids.row :=
  Kids.mk (Some item) (Some kid) (Some display_order).

(** The three stories of the end-to-end example of the specification. *)
Definition rust_session : Session :=
  {| items := [ a_story 1 "Understanding the Rust borrow checker" 50 100;
                a_story 2 "A Go tutorial" 10 50;
                a_story 3 "Rust async patterns" 5 10 ];
     kids := [] |}.

Definition rust_query : string := "rust borrow checker".

Definition rust_candidates : list (Z * Q) :=
  [ (1, (2 # 10)%Q); (2, (1 # 10)%Q); (3, (9 # 10)%Q) ].

(** A story without a title. *)
Definition untitled_session : Session :=
  {| items := [ Item.mk 7 (Some 100) None None None (Some 3)
                        (Some ItemType.story) None None ];
     kids := [] |}.

(** Fifty-one stories, with ids and scores 1 to 51. *)
Definition many_stories : Session :=
  {| items := map (fun n => a_story (Z.of_nat n) "story" (Z.of_nat n) 0)
                  (seq 1 51);
     kids := [] |}.

(** A substring test, for the sessions above. *)
Definition contains (column value : string) : bool :=
  match String.index 0 value column with
  | Some _ => true
  | None => false
  end.

(** A story with three comments; the second has no text, the first has
    two replies and the third has an empty reply. *)
Definition thread_session : Session :=
  {| items := [ a_story 1 "Show HN" 10 100;
                a_comment 11 (Some "first");
                a_comment 12 None;
                a_comment 13 (Some "third");
                a_comment 21 (Some "late reply");
                a_comment 22 (Some "early reply");
                a_comment 23 (Some "") ];
     kids := [ a_kid 1 13 3; a_kid 1 11 1; a_kid 1 12 2;
               a_kid 11 21 2; a_kid 11 22 1; a_kid 13 23 1 ] |}.

(** The ranking of the three stories, as [compute_rankings] returns it. *)
Definition rust_ranking : list (Q * Z) :=
  match Utils.compute_rankings rust_session rust_query rust_candidates with
  | Py.Ok out => out
  | Py.Raise _ => []
  end.

(** Two stories that differ in nothing but their id, and a third one. *)
Definition tie_session : Session :=
  {| items := [ a_story 1 "Rust" 10 100;
                a_story 2 "Rust" 10 100;
                a_story 3 "Go" 5 50 ];
     kids := [] |}.

Definition tie_candidates : list (Z * Q) :=
  [ (1, (1 # 10)%Q); (2, (1 # 10)%Q); (3, (9 # 10)%Q) ].

(** [rust_session] after the row of item 2 was deleted. *)
Definition rust_session_later : Session :=
  {| items := [ a_story 1 "Understanding the Rust borrow checker" 50 100;
                a_story 3 "Rust async patterns" 5 10 ];
     kids := [] |}.

Definition rust_provider (query : string) : list (Z * Q) := rust_candidates.

(** [word k] is the letter a written [k + 1] times, and [sentence n] the
    words [word (n - 1)], ..., [word 0], each followed by a space. *)
Fixpoint word (k : nat) : string :=
  match k with
  | O => "a"
  | S k' => String "a" (word k')
  end.

Fixpoint sentence (n : nat) : string :=
  match n with
  | O => ""
  | S n' => word n' ++ String " " (sentence n')
  end.

Definition keywords_none : Utils.Keywords :=
  {| Utils.kw_item_type := None; Utils.kw_by := None;
     Utils.kw_before_time := None; Utils.kw_after_time := None;
     Utils.kw_min_score := None; Utils.kw_max_score := None;
     Utils.kw_min_comments := None; Utils.kw_max_comments := None;
     Utils.kw_sort_by := None; Utils.kw_sort_order := None;
     Utils.kw_skip := None; Utils.kw_limit := None;
     Utils.kw_query := None |}.

End Examples.

(** ** What a listing filter asks of an item *)

Module Filters.

(** An argument that is [None] asks nothing. *)
Definition when {B : Type} (arg : option B) (P : B -> Prop) : Prop :=
  match arg with
  | Some v => P v
  | None => True
  end.

(** The column holds a value, and the value satisfies [P]. *)
Definition column {A : Type} (col : option A) (P : A -> Prop) : Prop :=
  exists x, col = Some x /\ P x.

Section Passes.
Variable contains : string -> string -> bool.

(** The item passes every filter of a call to [get_items]. *)
Definition passes (item_type : option ItemType.t) (by_ : option string)
           (before_time after_time : option Z)
           (min_score max_score : option Z)
           (min_comments max_comments : option Z)
           (query : option string) (i : Item.t) : Prop :=
  Item.type i = item_type /\
  when by_ (fun b => Item.by_ i = Some b) /\
  when before_time (fun t => column (Item.time i) (fun x => x <= t)) /\
  when after_time (fun t => column (Item.time i) (fun x => t <= x)) /\
  when min_score (fun v => column (Item.score i) (fun x => v <= x)) /\
  when max_score (fun v => column (Item.score i) (fun x => x <= v)) /\
  when min_comments (fun v => column (Item.descendants i) (fun x => v <= x)) /\
  when max_comments (fun v => column (Item.descendants i) (fun x => x <= v)) /\
  when query (fun q => column (Item.title i) (fun t => contains t q = true) \/
                       column (Item.text i) (fun t => contains t q = true)).
End Passes.

(** The order that [sort_order] asks of the sort column: ascending with
    the missing values first, or descending with the missing values
    last. *)
Definition ordered (sort_by : SortBy.t) (sort_order : Order.t) (x y : Item.t) : Prop :=
  match sort_order with
  | Order.asc =>
      Spec.display_le (Utils.sort_column sort_by x) (Utils.sort_column sort_by y)
  | Order.desc =>
      Spec.display_le (Utils.sort_column sort_by y) (Utils.sort_column sort_by x)
  end.

End Filters.

(** ** Signal vectors *)

Module Signal.

Local Open Scope Q_scope.

(** All the values of the vector are equal. *)
Definition constant (values : list Q) : Prop :=
  forall x y, In x values -> In y values -> x == y.

(** The vector takes two distinct values. *)
Definition varied (values : list Q) : Prop :=
  exists x y, In x values /\ In y values /\ ~ x == y.

End Signal.

(** ** The candidates of a ranking *)

Module Ranking.

(** The item store has a row for [id], and the row has a title. *)
Definition titled (session : Session) (id : Z) : bool :=
  match find (fun i => (Item.id i =? id)%Z) (items session) with
  | Some i => match Item.title i with Some _ => true | None => false end
  | None => false
  end.

(** The row with the score and the time that the ranking uses when they
    are missing: a score of 1 and a time of 0. *)
Definition fill (i : Item.t) : Item.t :=
  Item.mk (Item.id i)
          (Some match Item.time i with Some t => t | None => 0%Z end)
          (Item.title i) (Item.url i) (Item.text i)
          (Some match Item.score i with Some v => v | None => 1%Z end)
          (Item.type i) (Item.by_ i) (Item.descendants i).

Definition with_defaults (session : Session) : Session :=
  {| items := map fill (items session); kids := kids session |}.

End Ranking.

(** ** White space at the ends of a text *)

Module Chars.

(** [lstrip] on the list of the characters. *)
Fixpoint drop_spaces (l : list ascii) : list ascii :=
  match l with
  | [] => []
  | c :: r => if Str.is_space c then drop_spaces r else l
  end.

(** [strip] on the list of the characters. *)
Definition strip_list (l : list ascii) : list ascii :=
  rev (drop_spaces (rev (drop_spaces l))).

End Chars.

(** ** initialize_middleware: the cached OpenAPI schema *)

Module App.

Section SetSchema.

(** The values of the schema, and the part of the application that
    [set_schema] does not write. *)
Variables (V R : Type).

(** A schema is a dictionary. *)
Definition Schema : Type := list (string * V).

(** The application: the attribute [openapi_schema], which is [None] until
    a schema is stored, and the rest. *)
Record t : Type := mk {
  rest : R;
  openapi_schema : option Schema
}.

(** [get_schema] is imported from [schema], which is not among the
    sources; it is taken as given. *)
Variable get_schema : t -> Schema.

(** [set_schema()]: the schema it returns and the application it leaves.
    An attribute that is [None] or an empty dictionary is false. *)
Definition set_schema (app : t) : Schema * t :=
  match openapi_schema app with
  | Some (entry :: entries) => (entry :: entries, app)
  | _ =>
      let schema := get_schema app in
      (schema, {| rest := rest app; openapi_schema := Some schema |})
  end.

End SetSchema.

End App.

(** ** More concrete inputs *)

Module Cases.

Local Open Scope string_scope.

(** One candidate, which has a title. *)
Definition single_candidate : list (Z * Q) := [ (1, (2 # 10)%Q) ].

(** The surviving row of that candidate in [Examples.rust_session]. *)
Definition single_row : Utils.Expanded :=
  (1, (2 # 10)%Q, "Understanding the Rust borrow checker", 50, 100).

(** Candidates of which one, 99, has no row in [Examples.rust_session]. *)
Definition unknown_candidates : list (Z * Q) :=
  [ (1, (2 # 10)%Q); (99, (1 # 10)%Q); (3, (9 # 10)%Q) ].

(** The scores of the three stories. *)
Definition scores : list Q := [50; 10; 5]%Q.

Definition normalized_scores : list Q :=
  match Utils.normalize scores true with
  | Py.Ok out => out
  | Py.Raise _ => []
  end.

(** The stories that the search for the example query returns. *)
Definition rust_stories (limit : Z) (exclude_comments : bool) : list Utils.Story :=
  match Utils.semantic_search Examples.rust_provider Examples.rust_session
          Examples.rust_query limit exclude_comments with
  | Py.Ok stories => stories
  | Py.Raise _ => []
  end.

(** An application without a schema, and a generator of schemas. *)
Definition fresh_app : App.t string unit :=
  App.mk string unit tt None.

Definition a_schema (app : App.t string unit) : App.Schema string :=
  [ ("openapi", "3.0.2") ].

Definition no_schema (app : App.t string unit) : App.Schema string := [].

End Cases.

(** ** Rankings that agree *)

Module Outcome.

Local Open Scope Q_scope.






End Outcome.

(** * Properties *)

(** ** The stable sort *)

Section StableSortFacts.
Context {A : Type} (lt : A -> A -> bool).

Lemma insert_perm (x : A) (l : list A) :
  Permutation (Stable.insert lt x l) (x :: l).
Proof.
  induction l as [|y r IH]; simpl.
  - apply Permutation_refl.
  - destruct (lt y x).
    + rewrite perm_swap. apply perm_skip, IH.
    + apply Permutation_refl.
Qed.

Lemma sort_perm (l : list A) : Permutation (Stable.sort lt l) l.
Proof.
  induction l as [|x r IH]; simpl.
  - apply perm_nil.
  - rewrite insert_perm. apply perm_skip, IH.
Qed.

Lemma sort_in (l : list A) (x : A) : In x (Stable.sort lt l) <-> In x l.
Proof.
  split; apply Permutation_in; [|symmetry]; apply sort_perm.
Qed.

Lemma sort_length (l : list A) : List.length (Stable.sort lt l) = List.length l.
Proof. apply Permutation_length, sort_perm. Qed.

Let before := Stable.before lt.

Hypothesis lt_asym : forall x y, lt x y = true -> lt y x = false.
Hypothesis before_trans : forall x y z, before x y -> before y z -> before x z.

Lemma insert_sorted (x : A) (l : list A) :
  StronglySorted before l -> StronglySorted before (Stable.insert lt x l).
Proof.
  induction 1 as [|y r Hs IH Hy]; simpl.
  - constructor; constructor.
  - destruct (lt y x) eqn:E.
    + constructor; [exact IH|].
      apply Forall_forall. intros z Hz.
      apply (Permutation_in _ (insert_perm x r)) in Hz.
      destruct Hz as [<-|Hz].
      * apply lt_asym, E.
      * rewrite Forall_forall in Hy. apply Hy, Hz.
    + constructor; [constructor; assumption|].
      constructor; [exact E|].
      apply Forall_forall. intros z Hz.
      rewrite Forall_forall in Hy.
      apply before_trans with y; [exact E | apply Hy, Hz].
Qed.

Lemma sort_sorted (l : list A) : StronglySorted before (Stable.sort lt l).
Proof.
  induction l as [|x r IH]; simpl.
  - constructor.
  - apply insert_sorted, IH.
Qed.

End StableSortFacts.

(** ** SQL *)

Lemma firstn_incl {A : Type} (n : nat) (l : list A) (x : A) :
  In x (firstn n l) -> In x l.
Proof.
  intros H. rewrite <- (firstn_skipn n l). apply in_or_app. now left.
Qed.

Lemma skipn_incl {A : Type} (n : nat) (l : list A) (x : A) :
  In x (skipn n l) -> In x l.
Proof.
  intros H. rewrite <- (firstn_skipn n l). apply in_or_app. now right.
Qed.

Lemma limit_incl {A : Type} (n : Z) (rows : list A) (x : A) :
  In x (Sql.limit n rows) -> In x rows.
Proof.
  unfold Sql.limit. destruct (n <? 0); [tauto|]. apply firstn_incl.
Qed.

Lemma offset_incl {A : Type} (k : Z) (rows : list A) (x : A) :
  In x (Sql.offset k rows) -> In x rows.
Proof. unfold Sql.offset. apply skipn_incl. Qed.

Lemma limit_length {A : Type} (n : Z) (rows : list A) :
  0 <= n -> Z.of_nat (List.length (Sql.limit n rows)) <= n.
Proof.
  intros Hn. unfold Sql.limit.
  destruct (Z.ltb_spec n 0); [lia|].
  rewrite length_firstn. lia.
Qed.

Lemma limit_nonneg {A : Type} (n : Z) (rows : list A) :
  0 <= n -> Sql.limit n rows = firstn (Z.to_nat n) rows.
Proof.
  intros Hn. unfold Sql.limit. destruct (Z.ltb_spec n 0); [lia|reflexivity].
Qed.

Lemma filter_if_incl {B : Type} (arg : option B) (p : B -> Item.t -> bool)
      (rows : list Item.t) (x : Item.t) :
  In x (Utils.filter_if arg p rows) -> In x rows.
Proof.
  destruct arg; simpl; [|tauto]. intros H. apply filter_In in H. tauto.
Qed.

Lemma filter_if_spec {B : Type} (arg : option B) (p : B -> Item.t -> bool)
      (rows : list Item.t) (x : Item.t) :
  In x (Utils.filter_if arg p rows) <->
  In x rows /\ match arg with Some v => p v x = true | None => True end.
Proof.
  destruct arg; simpl; [apply filter_In | tauto].
Qed.

(** ** get_items *)

Section ListingFacts.
Variable contains : string -> string -> bool.

(** Every row of the answer is a row of the table that passes the test on
    the kind. *)
Lemma items_query_kind session item_type by_ before_time after_time
      min_score max_score min_comments max_comments sort_by sort_order query i :
  In i (Utils.items_query contains session item_type by_ before_time after_time
          min_score max_score min_comments max_comments sort_by sort_order query) ->
  In i (items session) /\
  Sql.eq_or_is_null ItemType.eqb (Item.type i) item_type = true.
Proof.
  unfold Utils.items_query. intros H.
  assert (H' : In i (Utils.filter_if query
            (fun v i => Sql.cmp contains (Item.title i) v
                        || Sql.cmp contains (Item.text i) v)
            (Utils.filter_if max_comments (fun v i => Sql.cmp Z.leb (Item.descendants i) v)
            (Utils.filter_if min_comments (fun v i => Sql.cmp Z.geb (Item.descendants i) v)
            (Utils.filter_if max_score (fun v i => Sql.cmp Z.leb (Item.score i) v)
            (Utils.filter_if min_score (fun v i => Sql.cmp Z.geb (Item.score i) v)
            (Utils.filter_if after_time (fun v i => Sql.cmp Z.geb (Item.time i) v)
            (Utils.filter_if before_time (fun v i => Sql.cmp Z.leb (Item.time i) v)
            (Utils.filter_if by_ (fun v i => Sql.cmp String.eqb (Item.by_ i) v)
            (filter (fun i => Sql.eq_or_is_null ItemType.eqb (Item.type i) item_type)
                    (items session))))))))))).
  { destruct sort_by as [sb|]; [|exact H].
    destruct sort_order as [[|]|]; [| |exact H];
      unfold Sql.order_by_asc, Sql.order_by_desc in H;
      apply sort_in in H; exact H. }
  clear H.
  repeat (apply filter_if_incl in H').
  apply filter_In in H'. exact H'.
Qed.

Lemma get_items_incl session item_type by_ before_time after_time
      min_score max_score min_comments max_comments sort_by sort_order
      skip limit query i :
  In i (Utils.get_items contains session item_type by_ before_time after_time
          min_score max_score min_comments max_comments sort_by sort_order
          skip limit query) ->
  In i (Utils.items_query contains session item_type by_ before_time after_time
          min_score max_score min_comments max_comments sort_by sort_order query).
Proof.
  unfold Utils.get_items. intros H.
  apply limit_incl, offset_incl in H. exact H.
Qed.

(** C2, as the code has it: when the kind is absent the filter on the kind
    is still applied, and it is [type IS NULL].  Whatever the other
    arguments are, every item of the answer has no kind; an item that has a
    kind (a story, a comment, ...) is never listed. *)
Theorem get_items_kind_absent_is_null :
  forall session by_ before_time after_time min_score max_score
         min_comments max_comments sort_by sort_order skip limit query,
    Forall (fun i => Item.type i = None)
           (Utils.get_items contains session None by_ before_time after_time
              min_score max_score min_comments max_comments sort_by sort_order
              skip limit query).
Proof.
  intros. apply Forall_forall. intros i Hi.
  apply get_items_incl, items_query_kind in Hi.
  destruct Hi as [_ Hi]. simpl in Hi.
  destruct (Item.type i); [discriminate|reflexivity].
Qed.

(** C6: the limit that reaches the query is the requested one, or 10 when
    none is requested, cut down to 50; it is never above 50, and unless it is
    negative the answer has at most 50 rows. *)
Theorem get_items_limit_clamped :
  forall session kw,
    let n := Utils.effective_limit kw in
    n = Z.min (Utils.or_default (Utils.kw_limit kw) 10) 50 /\
    n <= 50 /\
    Utils.call_get_items contains session kw =
      Sql.limit n
        (Sql.offset (Utils.or_default (Utils.kw_skip kw) 0)
           (Utils.items_query contains session
              (Utils.kw_item_type kw) (Utils.kw_by kw)
              (Utils.kw_before_time kw) (Utils.kw_after_time kw)
              (Utils.kw_min_score kw) (Utils.kw_max_score kw)
              (Utils.kw_min_comments kw) (Utils.kw_max_comments kw)
              (Utils.kw_sort_by kw) (Utils.kw_sort_order kw)
              (Utils.kw_query kw))) /\
    (n < 0 \/
     Z.of_nat (List.length (Utils.call_get_items contains session kw)) <= 50).
Proof.
  intros session kw n.
  assert (Hn : n = Z.min (Utils.or_default (Utils.kw_limit kw) 10) 50).
  { subst n. unfold Utils.effective_limit, Utils.MAX_NUM.
    destruct (Z.gtb_spec (Utils.or_default (Utils.kw_limit kw) 10) 50); lia. }
  assert (Hc : Utils.call_get_items contains session kw =
               Sql.limit n
                 (Sql.offset (Utils.or_default (Utils.kw_skip kw) 0)
                    (Utils.items_query contains session
                       (Utils.kw_item_type kw) (Utils.kw_by kw)
                       (Utils.kw_before_time kw) (Utils.kw_after_time kw)
                       (Utils.kw_min_score kw) (Utils.kw_max_score kw)
                       (Utils.kw_min_comments kw) (Utils.kw_max_comments kw)
                       (Utils.kw_sort_by kw) (Utils.kw_sort_order kw)
                       (Utils.kw_query kw)))) by reflexivity.
  split; [exact Hn|]. split; [lia|]. split; [exact Hc|].
  destruct (Z.lt_ge_cases n 0) as [Hneg|Hpos]; [now left|right].
  rewrite Hc.
  pose proof (limit_length n
    (Sql.offset (Utils.or_default (Utils.kw_skip kw) 0)
       (Utils.items_query contains session
          (Utils.kw_item_type kw) (Utils.kw_by kw)
          (Utils.kw_before_time kw) (Utils.kw_after_time kw)
          (Utils.kw_min_score kw) (Utils.kw_max_score kw)
          (Utils.kw_min_comments kw) (Utils.kw_max_comments kw)
          (Utils.kw_sort_by kw) (Utils.kw_sort_order kw)
          (Utils.kw_query kw))) Hpos).
  lia.
Qed.

(** C9, amended: for a skip [k >= 0] and a limit [n >= 0] the answer is the
    first [min n 50] rows, from offset [k] on, of the filtered and ordered
    rows; the offset is applied before the limit. *)
Theorem get_items_offset_then_limit :
  forall session item_type by_ before_time after_time min_score max_score
         min_comments max_comments sort_by sort_order skip limit query,
    0 <= skip -> 0 <= limit ->
    Utils.get_items contains session item_type by_ before_time after_time
      min_score max_score min_comments max_comments sort_by sort_order
      skip limit query =
    firstn (Z.to_nat (Z.min limit 50))
      (skipn (Z.to_nat skip)
         (Utils.items_query contains session item_type by_ before_time
            after_time min_score max_score min_comments max_comments
            sort_by sort_order query)).
Proof.
  intros * Hs Hl. unfold Utils.get_items, Utils.MAX_NUM, Sql.offset.
  destruct (Z.gtb_spec limit 50) as [Hgt|Hle].
  - rewrite limit_nonneg by lia. rewrite Z.min_r by lia. reflexivity.
  - rewrite limit_nonneg by lia. rewrite Z.min_l by lia. reflexivity.
Qed.

End ListingFacts.

(** ** Loops and comprehensions *)

Lemma for_app {A S : Type} (xs ys : list A) (s : S) (body : S -> A -> Py.result S) :
  Utils.for_ (xs ++ ys) s body =
  (s' <- Utils.for_ xs s body ;; Utils.for_ ys s' body).
Proof.
  revert s. induction xs as [|x r IH]; intros s; simpl.
  - reflexivity.
  - destruct (body s x) as [s'|e]; simpl; [apply IH|reflexivity].
Qed.

(** A loop whose body appends what [f] returns collects the results of [f],
    in order, and stops at the first exception. *)
Lemma for_collect {A B : Type} (f : A -> Py.result B) (xs : list A) (acc out : list B) :
  Utils.for_ xs acc (fun acc x => y <- f x ;; Py.Ok (acc ++ [y])) = Py.Ok out <->
  exists ys, Forall2 (fun x y => f x = Py.Ok y) xs ys /\ out = acc ++ ys.
Proof.
  revert acc. induction xs as [|x r IH]; intros acc; simpl.
  - split.
    + intros H. injection H as <-. exists []. split; [constructor|].
      now rewrite app_nil_r.
    + intros (ys & H & ->). inversion H. now rewrite app_nil_r.
  - destruct (f x) as [y|e] eqn:E; simpl.
    + rewrite IH. split.
      * intros (ys & H & ->). exists (y :: ys). split.
        -- constructor; assumption.
        -- now rewrite <- app_assoc.
      * intros (ys & H & ->). inversion H as [|x' y' r' ys' Hxy Hr]; subst.
        exists ys'. split; [exact Hr|].
        assert (y' = y) by congruence. subst y'. now rewrite <- app_assoc.
    + split; [discriminate|].
      intros (ys & H & _). inversion H; subst. congruence.
Qed.

Lemma comprehension_ok {A B : Type} (f : A -> Py.result B) (xs : list A) (out : list B) :
  Utils.comprehension f xs = Py.Ok out <-> Forall2 (fun x y => f x = Py.Ok y) xs out.
Proof.
  unfold Utils.comprehension. rewrite for_collect. simpl. split.
  - intros (ys & H & ->). exact H.
  - intros H. now exists out.
Qed.

Lemma comprehension_map {A B : Type} (f : A -> Py.result B) (g : A -> B) (xs : list A) :
  Forall (fun x => f x = Py.Ok (g x)) xs ->
  Utils.comprehension f xs = Py.Ok (map g xs).
Proof.
  intros H. apply comprehension_ok.
  induction H; simpl; constructor; assumption.
Qed.

(** ** normalize *)

Local Open Scope Q_scope.

Lemma Qltb_lt (a b : Q) : Utils.Qltb a b = true <-> a < b.
Proof.
  unfold Utils.Qltb. rewrite Qlt_alt.
  destruct (a ?= b); split; congruence.
Qed.

Lemma Qltb_ge (a b : Q) : Utils.Qltb a b = false <-> b <= a.
Proof.
  rewrite <- Bool.not_true_iff_false, Qltb_lt. split.
  - apply Qnot_lt_le.
  - intros H1 H2. apply (Qlt_irrefl a). eapply Qlt_le_trans; eassumption.
Qed.

Lemma fold_min_spec (r : list Q) (x : Q) :
  let m := fold_left (fun best v => if Utils.Qltb v best then v else best) r x in
  In m (x :: r) /\ m <= x /\ Forall (fun v => m <= v) r.
Proof.
  revert x. induction r as [|y r IH]; intros x; simpl.
  - split; [now left|]. split; [apply Qle_refl|constructor].
  - destruct (Utils.Qltb y x) eqn:E.
    + apply Qltb_lt in E.
      destruct (IH y) as (Hin & Hle & Hall). simpl in Hin.
      split; [tauto|]. split.
      * apply Qle_trans with y; [exact Hle|apply Qlt_le_weak, E].
      * constructor; assumption.
    + apply Qltb_ge in E.
      destruct (IH x) as (Hin & Hle & Hall). simpl in Hin.
      split; [tauto|]. split; [exact Hle|].
      constructor; [|exact Hall]. apply Qle_trans with x; assumption.
Qed.

Lemma fold_max_spec (r : list Q) (x : Q) :
  let m := fold_left (fun best v => if Utils.Qltb best v then v else best) r x in
  In m (x :: r) /\ x <= m /\ Forall (fun v => v <= m) r.
Proof.
  revert x. induction r as [|y r IH]; intros x; simpl.
  - split; [now left|]. split; [apply Qle_refl|constructor].
  - destruct (Utils.Qltb x y) eqn:E.
    + apply Qltb_lt in E.
      destruct (IH y) as (Hin & Hle & Hall). simpl in Hin.
      split; [tauto|]. split.
      * apply Qle_trans with y; [apply Qlt_le_weak, E|exact Hle].
      * constructor; assumption.
    + apply Qltb_ge in E.
      destruct (IH x) as (Hin & Hle & Hall). simpl in Hin.
      split; [tauto|]. split; [exact Hle|].
      constructor; [|exact Hall]. apply Qle_trans with x; assumption.
Qed.

Lemma py_min_spec (values : list Q) (m : Q) :
  Utils.py_min values = Py.Ok m -> Spec.is_min m values.
Proof.
  destruct values as [|x r]; simpl; [discriminate|].
  intros H. injection H as <-.
  destruct (fold_min_spec r x) as (Hin & Hle & Hall).
  split; [exact Hin|]. constructor; assumption.
Qed.

Lemma py_max_spec (values : list Q) (m : Q) :
  Utils.py_max values = Py.Ok m -> Spec.is_max m values.
Proof.
  destruct values as [|x r]; simpl; [discriminate|].
  intros H. injection H as <-.
  destruct (fold_max_spec r x) as (Hin & Hle & Hall).
  split; [exact Hin|]. constructor; assumption.
Qed.

Lemma py_min_total (values : list Q) :
  values <> [] -> exists m, Utils.py_min values = Py.Ok m.
Proof. destruct values; [congruence|]. intros _. eexists. reflexivity. Qed.

Lemma py_max_total (values : list Q) :
  values <> [] -> exists m, Utils.py_max values = Py.Ok m.
Proof. destruct values; [congruence|]. intros _. eexists. reflexivity. Qed.

Lemma truediv_ok (a b : Q) : ~ b == 0 -> Utils.truediv a b = Py.Ok (a / b).
Proof.
  intros H. unfold Utils.truediv.
  destruct (Qeq_bool b 0) eqn:E; [|reflexivity].
  apply Qeq_bool_eq in E. contradiction.
Qed.

Lemma truediv_inv (a b q : Q) :
  Utils.truediv a b = Py.Ok q -> ~ b == 0 /\ q = a / b.
Proof.
  unfold Utils.truediv. destruct (Qeq_bool b 0) eqn:E; [discriminate|].
  intros H. injection H as <-. split; [|reflexivity].
  intros Hb. apply Qeq_eq_bool in Hb. congruence.
Qed.



Lemma map_if_reverse (reverse : bool) (lo hi : Q) (values : list Q) :
  (if reverse
   then map (fun value => 1 - value) (map (Spec.min_max lo hi) values)
   else map (Spec.min_max lo hi) values) = Spec.normalized lo hi reverse values.
Proof.
  unfold Spec.normalized. destruct reverse; [|reflexivity].
  rewrite map_map. reflexivity.
Qed.

Lemma min_lt_max (lo hi : Q) (values : list Q) :
  Spec.is_min lo values -> Spec.is_max hi values -> ~ hi - lo == 0 -> lo < hi.
Proof.
  intros [Hlo _] [_ Hhi] Hd.
  rewrite Forall_forall in Hhi. specialize (Hhi lo Hlo).
  apply Qnot_le_lt. intros Hle. apply Hd. lra.
Qed.

Lemma normalize_inv (values : list Q) (reverse : bool) (out : list Q) :
  Utils.normalize values reverse = Py.Ok out ->
  exists lo hi,
    Utils.py_min values = Py.Ok lo /\ Utils.py_max values = Py.Ok hi /\
    lo < hi /\ out = Spec.normalized lo hi reverse values.
Proof.
  unfold Utils.normalize.
  destruct (Utils.py_min values) as [lo|] eqn:Emin; simpl; [|discriminate].
  destruct (Utils.py_max values) as [hi|] eqn:Emax; simpl; [|discriminate].
  destruct (Utils.comprehension _ values) as [ns|] eqn:Ec; simpl; [|discriminate].
  intros H. injection H as <-.
  exists lo, hi. split; [reflexivity|]. split; [reflexivity|].
  apply comprehension_ok in Ec.
  assert (Hne : values <> []) by (destruct values; [discriminate|congruence]).
  assert (Hd : ~ hi - lo == 0).
  { destruct values as [|v r]; [congruence|].
    inversion Ec as [|? y ? ? Hv _]; subst.
    apply truediv_inv in Hv. tauto. }
  split.
  - eapply min_lt_max; eauto using py_min_spec, py_max_spec.
  - assert (Hns : ns = map (Spec.min_max lo hi) values).
    { clear -Ec. induction Ec as [|v n r ns Hv _ IH]; simpl; [reflexivity|].
      apply truediv_inv in Hv. destruct Hv as [_ ->]. now rewrite IH. }
    subst ns. apply map_if_reverse.
Qed.

Lemma normalize_total (values : list Q) (reverse : bool) (lo hi : Q) :
  Utils.py_min values = Py.Ok lo -> Utils.py_max values = Py.Ok hi ->
  lo < hi ->
  Utils.normalize values reverse = Py.Ok (Spec.normalized lo hi reverse values).
Proof.
  intros Emin Emax Hlt. unfold Utils.normalize.
  rewrite Emin, Emax. simpl.
  rewrite (comprehension_map _ (Spec.min_max lo hi)).
  - simpl. now rewrite map_if_reverse.
  - apply Forall_forall. intros v _. apply truediv_ok. lra.
Qed.


(** Two distinct values separate the minimum from the maximum. *)
Lemma distinct_min_lt_max (lo hi x y : Q) (values : list Q) :
  Spec.is_min lo values -> Spec.is_max hi values ->
  In x values -> In y values -> ~ x == y -> lo < hi.
Proof.
  intros [_ Hlo] [_ Hhi] Hx Hy Hxy.
  rewrite Forall_forall in Hlo, Hhi.
  pose proof (Hlo x Hx). pose proof (Hlo y Hy).
  pose proof (Hhi x Hx). pose proof (Hhi y Hy).
  apply Qnot_le_lt. intros Hle. apply Hxy. lra.
Qed.

(** [normalize] returns on a vector with two distinct values. *)
Lemma normalize_distinct (values : list Q) (reverse : bool) (x y : Q) :
  In x values -> In y values -> ~ (x == y)%Q ->
  exists lo hi,
    Spec.is_min lo values /\ Spec.is_max hi values /\ (lo < hi)%Q /\
    Utils.normalize values reverse = Py.Ok (Spec.normalized lo hi reverse values).
Proof.
  intros Hx Hy Hxy.
  assert (Hne : values <> []) by (intros ->; destruct Hx).
  destruct (py_min_total values Hne) as [lo Emin].
  destruct (py_max_total values Hne) as [hi Emax].
  pose proof (py_min_spec _ _ Emin) as Hmin.
  pose proof (py_max_spec _ _ Emax) as Hmax.
  assert (Hlt : (lo < hi)%Q)
    by (apply (distinct_min_lt_max lo hi x y values); assumption).
  exists lo, hi. repeat (split; [assumption|]).
  apply normalize_total; assumption.
Qed.


(** ** compute_rankings *)

Lemma for_ext {A S : Type} (xs : list A) (s : S) (body body' : S -> A -> Py.result S) :
  (forall s x, In x xs -> body s x = body' s x) ->
  Utils.for_ xs s body = Utils.for_ xs s body'.
Proof.
  revert s. induction xs as [|x r IH]; intros s H; simpl; [reflexivity|].
  rewrite (H s x) by now left.
  destruct (body' s x); simpl; [|reflexivity].
  apply IH. intros. apply H. now right.
Qed.

Lemma combine_seq_nth {A : Type} (xs : list A) (k i : nat) (x : A) :
  In (i, x) (combine (seq k (List.length xs)) xs) ->
  (k <= i)%nat /\ nth_error xs (i - k) = Some x.
Proof.
  revert k. induction xs as [|y r IH]; intros k; simpl; [tauto|].
  intros [H|H].
  - injection H as <- <-. split; [lia|]. now rewrite Nat.sub_diag.
  - apply IH in H. destruct H as [Hk Hn]. split; [lia|].
    replace (i - k)%nat with (S (i - S k)) by lia. exact Hn.
Qed.

Lemma enumerate_nth {A : Type} (xs : list A) (i : nat) (x : A) :
  In (i, x) (Utils.enumerate xs) -> nth_error xs i = Some x.
Proof.
  intros H. apply combine_seq_nth in H. now rewrite Nat.sub_0_r in H.
Qed.

Lemma map_snd_combine_seq {A B : Type} (g : A -> B) (xs : list A) (k : nat) :
  map (fun p => g (snd p)) (combine (seq k (List.length xs)) xs) = map g xs.
Proof.
  revert k. induction xs as [|x r IH]; intros k; simpl; [reflexivity|].
  now rewrite IH.
Qed.

Lemma index_map {A B : Type} (f : A -> B) (xs : list A) (i : nat) (x : A) :
  nth_error xs i = Some x -> Py.index (map f xs) i = Py.Ok (f x).
Proof.
  intros H. unfold Py.index. now rewrite nth_error_map, H.
Qed.

(** The loop over [enumerate(expanded)] reads, for each candidate, the
    three normalized values at the candidate's own position. *)
Lemma rank_loop_map (query : string) (expanded : list Utils.Expanded)
      (fs fd fa : Utils.Expanded -> Q) :
  Utils.rank_loop query expanded (map fs expanded) (map fd expanded) (map fa expanded) =
  Py.Ok (map (fun row =>
                (Utils.w1 * fs row + Utils.w2 * fd row + Utils.w3 * fa row
                 + Utils.w4 * inject_Z (Utils.matches query (Spec.row_title row)),
                 Spec.row_id row))
             expanded).
Proof.
  unfold Utils.rank_loop.
  set (g := fun row : Utils.Expanded =>
              (Utils.w1 * fs row + Utils.w2 * fd row + Utils.w3 * fa row
               + Utils.w4 * inject_Z (Utils.matches query (Spec.row_title row)),
               Spec.row_id row)).
  rewrite (for_ext _ _ _
             (fun acc x => y <- Py.Ok (g (snd x)) ;; Py.Ok (acc ++ [y]))).
  - change (Utils.comprehension (fun x => Py.Ok (g (snd x))) (Utils.enumerate expanded)
            = Py.Ok (map g expanded)).
    rewrite (comprehension_map _ (fun x => g (snd x))).
    + unfold Utils.enumerate. now rewrite map_snd_combine_seq.
    + apply Forall_forall. reflexivity.
  - intros acc [i row] Hin. apply enumerate_nth in Hin.
    destruct row as [[[[story_id distance] title] score] age].
    rewrite (index_map fs _ _ _ Hin), (index_map fd _ _ _ Hin),
            (index_map fa _ _ _ Hin).
    reflexivity.
Qed.

Lemma unzip3_inv (rows : list (Q * Q * Q)) scores ages distances :
  Utils.unzip3 rows = Py.Ok (scores, ages, distances) ->
  rows <> [] /\
  scores = map (fun r => fst (fst r)) rows /\
  ages = map (fun r => snd (fst r)) rows /\
  distances = map snd rows.
Proof.
  destruct rows as [|r rows]; simpl; [discriminate|].
  intros H. injection H as <- <- <-. repeat split. discriminate.
Qed.

Lemma signal_vectors (expanded : list Utils.Expanded) :
  let rows := map (fun '(_, distance, _, score, age) =>
                     (inject_Z score, inject_Z age, distance)) expanded in
  map (fun r => fst (fst r)) rows = map Spec.row_score expanded /\
  map (fun r => snd (fst r)) rows = map Spec.row_age expanded /\
  map snd rows = map Spec.row_distance expanded.
Proof.
  simpl. rewrite !map_map.
  repeat split; apply map_ext; intros [[[[? ?] ?] ?] ?]; reflexivity.
Qed.

(** What [compute_rankings] returns when it returns: there are surviving
    candidates, each signal takes two distinct values, and the answer is
    the sorted list of the pairs [Spec.ranked]. *)
Lemma compute_rankings_inv session query results out :
  Utils.compute_rankings session query results = Py.Ok out ->
  exists expanded b,
    Utils.expand session results = Py.Ok expanded /\
    expanded <> [] /\
    Spec.bounds_of b expanded /\
    Spec.score_min b < Spec.score_max b /\
    Spec.age_min b < Spec.age_max b /\
    Spec.distance_min b < Spec.distance_max b /\
    out = Utils.sorted_reverse (map (Spec.ranked query b) expanded).
Proof.
  unfold Utils.compute_rankings.
  destruct (Utils.expand session results) as [expanded|] eqn:Ee; simpl; [|discriminate].
  destruct (Utils.unzip3 _) as [[[scores ages] distances]|] eqn:Eu; simpl; [|discriminate].
  apply unzip3_inv in Eu. destruct Eu as (Hne & Es & Ea & Ed).
  destruct (signal_vectors expanded) as (Hs & Ha & Hd). simpl in Hs, Ha, Hd.
  rewrite Hs in Es. rewrite Ha in Ea. rewrite Hd in Ed. clear Hs Ha Hd.
  subst scores ages distances.
  destruct (Utils.normalize (map Spec.row_score expanded) false) as [ns|] eqn:En1;
    simpl; [|discriminate].
  destruct (Utils.normalize (map Spec.row_age expanded) false) as [na|] eqn:En2;
    simpl; [|discriminate].
  destruct (Utils.normalize (map Spec.row_distance expanded) true) as [nd|] eqn:En3;
    simpl; [|discriminate].
  apply normalize_inv in En1. destruct En1 as (slo & shi & Hs1 & Hs2 & Hs3 & ->).
  apply normalize_inv in En2. destruct En2 as (alo & ahi & Ha1 & Ha2 & Ha3 & ->).
  apply normalize_inv in En3. destruct En3 as (dlo & dhi & Hd1 & Hd2 & Hd3 & ->).
  unfold Spec.normalized. rewrite !map_map.
  rewrite rank_loop_map. simpl.
  intros H. injection H as <-.
  exists expanded,
    {| Spec.score_min := slo; Spec.score_max := shi;
       Spec.age_min := alo; Spec.age_max := ahi;
       Spec.distance_min := dlo; Spec.distance_max := dhi |}.
  split; [reflexivity|].
  split; [intros ->; apply Hne; reflexivity|].
  split.
  { unfold Spec.bounds_of; simpl.
    repeat (split; [first [apply py_min_spec | apply py_max_spec]; assumption|]).
    apply py_max_spec; assumption. }
  repeat (split; [assumption|]).
  reflexivity.
Qed.




Lemma StronglySorted_weaken {A : Type} (R R' : A -> A -> Prop) (l : list A) :
  (forall x y, R x y -> R' x y) -> StronglySorted R l -> StronglySorted R' l.
Proof.
  intros HR. induction 1 as [|x l Hs IH Hx]; constructor.
  - exact IH.
  - eapply Forall_impl; [|exact Hx]. intros y. apply HR.
Qed.




(** [compute_rankings] returns when every candidate has a row and each of
    the three signals takes two distinct values over the survivors. *)
Lemma compute_rankings_returns session query results expanded r1 r2 r3 r4 r5 r6 :
  Utils.expand session results = Py.Ok expanded ->
  In r1 expanded -> In r2 expanded ->
  ~ (Spec.row_score r1 == Spec.row_score r2)%Q ->
  In r3 expanded -> In r4 expanded ->
  ~ (Spec.row_age r3 == Spec.row_age r4)%Q ->
  In r5 expanded -> In r6 expanded ->
  ~ (Spec.row_distance r5 == Spec.row_distance r6)%Q ->
  exists out, Utils.compute_rankings session query results = Py.Ok out.
Proof.
  intros He H1 H2 Hs H3 H4 Ha H5 H6 Hd.
  unfold Utils.compute_rankings. rewrite He. cbn [Py.bind].
  destruct (signal_vectors expanded) as (Es & Ea & Ed). cbn zeta in Es, Ea, Ed.
  destruct expanded as [|r0 rest] eqn:Eexp; [destruct H1|].
  rewrite <- Eexp in *. 
  assert (Eu : Utils.unzip3
                 (map (fun '(_, distance, _, score, age) =>
                         (inject_Z score, inject_Z age, distance)) expanded) =
               Py.Ok (map Spec.row_score expanded, map Spec.row_age expanded,
                      map Spec.row_distance expanded)).
  { rewrite <- Es, <- Ea, <- Ed. rewrite Eexp. reflexivity. }
  rewrite Eu. cbn [Py.bind].
  destruct (normalize_distinct (map Spec.row_score expanded) false
              (Spec.row_score r1) (Spec.row_score r2))
    as (slo & shi & _ & _ & _ & ->); [apply in_map, H1|apply in_map, H2|exact Hs|].
  destruct (normalize_distinct (map Spec.row_age expanded) false
              (Spec.row_age r3) (Spec.row_age r4))
    as (alo & ahi & _ & _ & _ & ->); [apply in_map, H3|apply in_map, H4|exact Ha|].
  destruct (normalize_distinct (map Spec.row_distance expanded) true
              (Spec.row_distance r5) (Spec.row_distance r6))
    as (dlo & dhi & _ & _ & _ & ->); [apply in_map, H5|apply in_map, H6|exact Hd|].
  cbn [Py.bind]. unfold Spec.normalized. rewrite !map_map, rank_loop_map.
  cbn [Py.bind]. eexists. reflexivity.
Qed.

(** The survivors of the first loop. *)

Lemma expand_from session (results : list (Z * Q)) (acc : list Utils.Expanded) :
  Utils.for_ results acc
    (fun expanded '(story_id, distance) =>
       match Utils.fetch_title_score_time session story_id with
       | None => Py.Raise Py.TypeError
       | Some (title, score, age) =>
           match title with
           | None => Py.Ok expanded
           | Some title =>
               let score := match score with None => 1%Z | Some s => s end in
               let age := match age with None => 0%Z | Some a => a end in
               Py.Ok (expanded ++ [(story_id, distance, title, score, age)])
           end
       end) =
  match fold_right
          (fun c rest =>
             match Spec.survivor session c, rest with
             | Some p, Some r => Some (p ++ r)
             | _, _ => None
             end)
          (Some []) results with
  | Some kept => Py.Ok (acc ++ kept)
  | None => Py.Raise Py.TypeError
  end.
Proof.
  revert acc. induction results as [|[story_id distance] rest IH]; intros acc.
  - simpl. now rewrite app_nil_r.
  - cbn [Utils.for_ fold_right]. unfold Spec.survivor at 1. cbn [fst snd].
    destruct (Utils.fetch_title_score_time session story_id)
      as [[[[title|] score] age]|]; cbn [Py.bind].
    + rewrite IH. destruct (fold_right _ _ rest); [|reflexivity].
      now rewrite <- app_assoc.
    + rewrite IH. destruct (fold_right _ _ rest); reflexivity.
    + reflexivity.
Qed.

(** When every candidate has a row without a title, nothing survives. *)
Lemma expand_all_untitled session (results : list (Z * Q)) :
  Forall (fun c => Spec.survivor session c = Some []) results ->
  Utils.expand session results = Py.Ok [].
Proof.
  intros H. unfold Utils.expand. rewrite expand_from.
  induction H as [|c rest Hc _ IH]; [reflexivity|].
  cbn [fold_right]. rewrite Hc.
  destruct (fold_right _ _ rest) as [kept|]; [|discriminate].
  injection IH as IH. simpl in IH. subst kept. reflexivity.
Qed.

(** A candidate whose id has no row makes the ranking fail. *)
Lemma compute_rankings_missing_row session query (results : list (Z * Q)) c :
  In c results -> Spec.survivor session c = None ->
  Utils.compute_rankings session query results = Py.Raise Py.TypeError.
Proof.
  intros Hin Hc. unfold Utils.compute_rankings, Utils.expand.
  rewrite expand_from.
  assert (E : fold_right
                (fun c rest =>
                   match Spec.survivor session c, rest with
                   | Some p, Some r => Some (p ++ r)
                   | _, _ => None
                   end)
                (Some []) results = None).
  { induction results as [|d rest IH]; [destruct Hin|].
    cbn [fold_right]. destruct Hin as [->|Hin].
    - now rewrite Hc.
    - rewrite (IH Hin). destruct (Spec.survivor session d); reflexivity. }
  rewrite E. reflexivity.
Qed.

Lemma split_from_word (w : string) (cur : list ascii) (rest : string) :
  Forall (fun c => Str.is_space c = false) (list_ascii_of_string w) ->
  Str.split_from cur (w ++ String " " rest) =
  Str.flush (rev (list_ascii_of_string w) ++ cur) ++ Str.split_from [] rest.
Proof.
  revert cur. induction w as [|c w IH]; intros cur H; simpl.
  - reflexivity.
  - simpl in H. inversion H as [|? ? Hc Hw]; subst.
    rewrite Hc, IH by exact Hw. now rewrite <- app_assoc.
Qed.

Lemma word_letters (k : nat) :
  Forall (fun c => Str.is_space c = false) (list_ascii_of_string (Examples.word k)).
Proof.
  induction k as [|k IH]; simpl; repeat constructor. exact IH.
Qed.

Lemma word_lower (k : nat) : Str.lower (Examples.word k) = Examples.word k.
Proof.
  induction k as [|k IH]; simpl; [reflexivity|]. now rewrite IH.
Qed.

Lemma word_length (k : nat) : String.length (Examples.word k) = S k.
Proof.
  induction k as [|k IH]; simpl; [reflexivity|]. now rewrite IH.
Qed.

Lemma word_inj (j k : nat) : Examples.word j = Examples.word k -> j = k.
Proof.
  intros H. apply (f_equal String.length) in H.
  rewrite !word_length in H. congruence.
Qed.

Lemma split_sentence (n : nat) :
  Str.split (Examples.sentence n) = map Examples.word (rev (seq 0 n)).
Proof.
  unfold Str.split. induction n as [|n IH].
  - reflexivity.
  - cbn [Examples.sentence]. rewrite split_from_word by apply word_letters.
    rewrite IH, app_nil_r.
    replace (S n) with (n + 1)%nat by lia.
    rewrite seq_app, rev_app_distr. cbn [seq rev app map Nat.add].
    destruct (rev (list_ascii_of_string (Examples.word n))) eqn:E.
    + apply (f_equal (@List.length _)) in E.
      rewrite length_rev in E.
      pose proof (word_length n) as L.
      rewrite <- (string_of_list_ascii_of_string (Examples.word n)) in L.
      destruct (list_ascii_of_string (Examples.word n)); discriminate.
    + cbn [Str.flush app]. f_equal.
      unfold Str.rev_word. rewrite <- E, rev_involutive.
      apply string_of_list_ascii_of_string.
Qed.

Lemma words_sentence (n : nat) :
  Spec.words (Examples.sentence n) = map Examples.word (rev (seq 0 n)).
Proof.
  unfold Spec.words. rewrite split_sentence, map_map.
  apply map_ext. intros k. apply word_lower.
Qed.

Lemma filter_mem_self (l : list string) : filter (fun w => Str.mem w l) l = l.
Proof.
  apply forallb_filter_id. apply forallb_forall. intros w Hw.
  unfold Str.mem. apply existsb_exists. exists w.
  split; [exact Hw|apply String.eqb_refl].
Qed.

(** A query and a title can share any number of words: the overlap is an
    integer without an upper bound. *)
Lemma matches_unbounded (n : nat) :
  Utils.matches (Examples.sentence n) (Examples.sentence n) = Z.of_nat n.
Proof.
  unfold Utils.matches. fold (Spec.words (Examples.sentence n)).
  rewrite words_sentence. unfold Str.intersection, Str.to_set.
  rewrite nodup_fixed_point.
  - rewrite filter_mem_self, length_map, length_rev, length_seq. reflexivity.
  - apply Finite.Injective_map_NoDup.
    + intros j k. apply word_inj.
    + apply NoDup_rev, seq_NoDup.
Qed.

(** C3, as the code has it: when no candidate survives the drop of the
    untitled ones, [compute_rankings] does not return an empty ranking; the
    unpacking of the empty [zip] raises [ValueError]. *)
Theorem compute_rankings_no_survivor_raises :
  forall session query results,
    Utils.expand session results = Py.Ok [] ->
    Utils.compute_rankings session query results = Py.Raise Py.ValueError.
Proof.
  intros session query results H. unfold Utils.compute_rankings.
  rewrite H. reflexivity.
Qed.

(** An empty candidate list is the simplest such input. *)
Lemma compute_rankings_no_candidate session query :
  Utils.compute_rankings session query [] = Py.Raise Py.ValueError.
Proof. reflexivity. Qed.

(** [compute_rankings] never returns an empty ranking. *)
Lemma compute_rankings_not_empty session query results :
  Utils.compute_rankings session query results <> Py.Ok [].
Proof.
  intros H. apply compute_rankings_inv in H.
  destruct H as (expanded & b & _ & Hne & _ & _ & _ & _ & H).
  apply Hne. symmetry in H.
  apply (f_equal (@List.length _)) in H.
  unfold Utils.sorted_reverse in H. rewrite sort_length, length_map in H.
  destruct expanded; [reflexivity|discriminate].
Qed.



(** ** get_comments_text *)

Local Open Scope Z_scope.

Lemma key_lt_false (a b : option Z) :
  Sql.key_lt b a = false <-> Spec.display_le a b.
Proof.
  destruct a as [x|], b as [y|]; simpl; try tauto.
  - rewrite Z.ltb_ge. tauto.
  - split; [discriminate|tauto].
Qed.

Lemma order_by_asc_sorted {A : Type} (key : A -> option Z) (rows : list A) :
  StronglySorted (fun x y => Spec.display_le (key x) (key y))
                 (Sql.order_by_asc key rows).
Proof.
  unfold Sql.order_by_asc.
  apply StronglySorted_weaken
    with (R := Stable.before (fun a b => Sql.key_lt (key a) (key b))).
  - intros x y H. apply key_lt_false. exact H.
  - apply sort_sorted.
    + intros x y. destruct (key x), (key y); simpl; try congruence.
      rewrite Z.ltb_lt, Z.ltb_ge. lia.
    + intros x y z. unfold Stable.before.
      rewrite !key_lt_false.
      destruct (key x), (key y), (key z); simpl; try tauto. lia.
Qed.

Lemma fetchone_limit_1 (session : Session) (parent : Z) :
  Sql.fetchone (Sql.comment_kids session parent 1) =
  hd_error (Spec.children session parent).
Proof.
  unfold Sql.comment_kids, Sql.comment_kid_rows, Spec.children, Sql.fetchone.
  destruct (Sql.ordered_comment_kids session parent); reflexivity.
Qed.

Lemma comment_kids_10 (session : Session) (story_id : Z) :
  Sql.comment_kids session story_id 10 =
  firstn 10 (Spec.children session story_id).
Proof.
  unfold Sql.comment_kids, Sql.comment_kid_rows, Spec.children.
  rewrite limit_nonneg by lia. symmetry. apply firstn_map.
Qed.

Lemma comment_step_fragments (session : Session) (acc : list string) (c : Item.t) :
  Utils.comment_step session acc c = acc ++ Spec.fragments session c.
Proof.
  unfold Utils.comment_step, Spec.fragments, Spec.first_child.
  rewrite fetchone_limit_1.
  destruct (Utils.nonempty (Item.text c)) as [t|]; [|now rewrite app_nil_r].
  destruct (hd_error (Spec.children session (Item.id c))) as [child|];
    [|reflexivity].
  destruct (Utils.nonempty (Item.text child)) as [ct|]; [|reflexivity].
  rewrite <- app_assoc. reflexivity.
Qed.

Lemma fold_comment_step (session : Session) (comments : list Item.t) (acc : list string) :
  fold_left (Utils.comment_step session) comments acc =
  acc ++ flat_map (Spec.fragments session) comments.
Proof.
  revert acc. induction comments as [|c r IH]; intros acc; simpl.
  - now rewrite app_nil_r.
  - rewrite IH, comment_step_fragments, <- app_assoc. reflexivity.
Qed.



Lemma ordered_comment_kids_rows (session : Session) (parent : Z) :
  Forall (fun r => Kids.item (snd r) = Some parent /\
                   Kids.kid (snd r) = Some (Item.id (fst r)) /\
                   Item.type (fst r) = Some ItemType.comment /\
                   In (fst r) (items session) /\ In (snd r) (kids session))
         (Sql.ordered_comment_kids session parent).
Proof.
  apply Forall_forall. intros [i k] H.
  unfold Sql.ordered_comment_kids, Sql.order_by_asc in H.
  apply sort_in in H. apply filter_In in H. destruct H as [Hj Hf].
  unfold Sql.join_kids in Hj. apply in_flat_map in Hj.
  destruct Hj as (k' & Hk & Hi). apply in_map_iff in Hi.
  destruct Hi as (i' & E & Hi). injection E as -> ->.
  apply filter_In in Hi. destruct Hi as [Hi Hkid].
  apply andb_prop in Hf. destruct Hf as [Hp Ht]. simpl in *.
  unfold Sql.cmp in *.
  destruct (Kids.item k) as [p|]; [|discriminate]. apply Z.eqb_eq in Hp.
  destruct (Kids.kid k) as [c|]; [|discriminate]. apply Z.eqb_eq in Hkid.
  destruct (Item.type i) as [[| | | |]|]; try discriminate.
  subst. tauto.
Qed.


(** ** semantic_search *)

Lemma fetchone_where_id (session : Session) (id : Z) :
  Sql.fetchone (Sql.items_where_id session id) =
  find (fun i => Item.id i =? id) (items session).
Proof.
  unfold Sql.fetchone, Sql.items_where_id.
  induction (items session) as [|i r IH]; simpl; [reflexivity|].
  destruct (Item.id i =? id); [reflexivity|exact IH].
Qed.

Lemma story_step_enriched session exclude_comments stories cursor (result : Q * Z) :
  Utils.story_step session exclude_comments (stories, cursor) result =
  (stories ++ Spec.enriched session exclude_comments (snd result),
   Some (Sql.items_where_id session (snd result))).
Proof.
  unfold Utils.story_step, Spec.enriched.
  rewrite fetchone_where_id.
  destruct (find _ (items session)); [reflexivity|].
  now rewrite app_nil_r.
Qed.

Lemma fold_story_step session exclude_comments (results : list (Q * Z)) stories cursor :
  fold_left (Utils.story_step session exclude_comments) results (stories, cursor) =
  (stories ++ flat_map (Spec.enriched session exclude_comments) (map snd results),
   match rev results with
   | [] => cursor
   | last :: _ => Some (Sql.items_where_id session (snd last))
   end).
Proof.
  revert stories cursor. induction results as [|r rest IH]; intros stories cursor.
  - simpl. now rewrite app_nil_r.
  - cbn [fold_left]. rewrite story_step_enriched, IH.
    cbn [map flat_map rev]. rewrite <- app_assoc. f_equal.
    destruct (rev rest) as [|l ?] eqn:E; reflexivity.
Qed.

(** The loop and the [cursor.close()] that follows it. *)
Lemma fetch_stories_spec session exclude_comments (results : list (Q * Z)) :
  Utils.fetch_stories session results exclude_comments =
  match results with
  | [] => Py.Raise Py.UnboundLocalError
  | _ :: _ =>
      Py.Ok (flat_map (Spec.enriched session exclude_comments) (map snd results))
  end.
Proof.
  unfold Utils.fetch_stories. rewrite fold_story_step.
  destruct results as [|r rest]; [reflexivity|].
  destruct (rev (r :: rest)) eqn:E; [|reflexivity].
  apply (f_equal (@List.length _)) in E. rewrite length_rev in E. discriminate.
Qed.

Lemma enriched_ids session exclude_comments (ids : list Z) :
  map (fun s => Item.id (Utils.story s))
      (flat_map (Spec.enriched session exclude_comments) ids) =
  filter (Spec.has_row session) ids.
Proof.
  induction ids as [|id r IH]; simpl; [reflexivity|].
  rewrite map_app, IH. unfold Spec.enriched, Spec.has_row.
  destruct (find (fun i => Item.id i =? id) (items session)) as [row|] eqn:E.
  - pose proof (find_some _ _ E) as [Hin Hid].
    assert (Hx : existsb (fun i => Item.id i =? id) (items session) = true).
    { apply existsb_exists. exists row. tauto. }
    rewrite Hx. simpl. apply Z.eqb_eq in Hid. now rewrite Hid.
  - assert (Hx : existsb (fun i => Item.id i =? id) (items session) = false).
    { apply Bool.not_true_iff_false. intros H. apply existsb_exists in H.
      destruct H as (i & Hin & Hid).
      pose proof (find_none _ _ E i Hin) as Hn. simpl in Hn. congruence. }
    rewrite Hx. reflexivity.
Qed.

Lemma filter_length_lt {A : Type} (p : A -> bool) (l : list A) (x : A) :
  In x l -> p x = false -> (List.length (filter p l) < List.length l)%nat.
Proof.
  induction l as [|y r IH]; simpl; [tauto|].
  intros [->|Hin] Hp.
  - rewrite Hp. pose proof (filter_length_le p r). lia.
  - specialize (IH Hin Hp). destruct (p y); simpl; lia.
Qed.

Lemma slice_to_length {A : Type} (xs : list A) (n : Z) :
  0 <= n -> n <= Z.of_nat (List.length xs) ->
  Z.of_nat (List.length (Py.slice_to xs n)) = n.
Proof.
  intros H0 Hn. unfold Py.slice_to.
  destruct (Z.ltb_spec n 0); [lia|].
  rewrite length_firstn. lia.
Qed.

Lemma fetch_stories_ids session exclude_comments (results : list (Q * Z)) stories :
  Utils.fetch_stories session results exclude_comments = Py.Ok stories ->
  map (fun s => Item.id (Utils.story s)) stories =
  filter (Spec.has_row session) (map snd results).
Proof.
  rewrite fetch_stories_spec. destruct results as [|r rest]; [discriminate|].
  intros H. injection H as <-.
  apply (enriched_ids session exclude_comments (map snd (r :: rest))).
Qed.

(** [semantic_search] is the ranking, cut to [limit], followed by the
    enrichment, all on one state of the tables. *)
Lemma semantic_search_stages provider session query limit exclude_comments :
  Utils.semantic_search provider session query limit exclude_comments =
  Utils.semantic_search_at provider session session query limit exclude_comments.
Proof. reflexivity. Qed.

(** C10: an id that survived the ranking and the cut to the top [limit]
    and has no row when the enrichment reads the store raises no error: it
    is left out, and the ids of the stories returned are, in order, the ids
    of the top [limit] that have a row.  When one of them has none,
    [semantic_search] returns fewer than [limit] stories although [limit]
    candidates or more survived the ranking. *)
Theorem semantic_search_drops_missing_rows :
  forall provider session session' query limit exclude_comments ranked,
    Utils.compute_rankings session (Str.strip query) (provider (Str.strip query))
    = Py.Ok ranked ->
    0 < limit -> limit <= Z.of_nat (List.length ranked) ->
    let top := Py.slice_to ranked limit in
    exists stories,
      Utils.semantic_search_at provider session session' query limit
                               exclude_comments = Py.Ok stories /\
      stories = flat_map (Spec.enriched session' exclude_comments) (map snd top) /\
      map (fun s => Item.id (Utils.story s)) stories =
        filter (Spec.has_row session') (map snd top) /\
      (forall id, Spec.has_row session' id = false ->
                  ~ In id (map (fun s => Item.id (Utils.story s)) stories)) /\
      ((exists id, In id (map snd top) /\ Spec.has_row session' id = false) ->
       Z.of_nat (List.length stories) < limit).
Proof.
  intros provider session session' query limit exclude_comments ranked
         Hrank Hpos Hlen top.
  assert (Ltop : Z.of_nat (List.length top) = limit)
    by (apply slice_to_length; lia).
  exists (flat_map (Spec.enriched session' exclude_comments) (map snd top)).
  pose proof (enriched_ids session' exclude_comments (map snd top)) as Hids.
  split.
  { unfold Utils.semantic_search_at. cbn zeta. rewrite Hrank. cbn [Py.bind].
    rewrite fetch_stories_spec. fold top.
    destruct top; [simpl in Ltop; lia|reflexivity]. }
  split; [reflexivity|]. split; [exact Hids|]. split.
  - intros id Hid Hin. rewrite Hids in Hin. apply filter_In in Hin.
    destruct Hin as [_ Hin]. congruence.
  - intros (id & Hin & Hid).
    pose proof (filter_length_lt _ _ _ Hin Hid) as Hlt.
    rewrite <- Hids in Hlt. rewrite !length_map in Hlt. lia.
Qed.

(** The survivors of the first loop of the ranking have a row. *)
Lemma survivor_has_row session c p row :
  Spec.survivor session c = Some p -> In row p ->
  Spec.has_row session (Spec.row_id row) = true.
Proof.
  unfold Spec.survivor, Utils.fetch_title_score_time.
  rewrite fetchone_where_id.
  destruct (find _ (items session)) as [i|] eqn:E; simpl; [|discriminate].
  destruct (Item.title i); intros H; injection H as <-; [|intros []].
  intros [<-|[]]. simpl.
  apply find_some in E. unfold Spec.has_row.
  apply existsb_exists. exists i. exact E.
Qed.

Lemma expand_rows_have_row session results expanded :
  Utils.expand session results = Py.Ok expanded ->
  Forall (fun row => Spec.has_row session (Spec.row_id row) = true) expanded.
Proof.
  unfold Utils.expand. rewrite expand_from.
  destruct (fold_right _ _ results) as [kept|] eqn:E; [|discriminate].
  intros H. injection H as <-. simpl.
  revert kept E. induction results as [|c rest IH]; intros kept E.
  - injection E as <-. constructor.
  - cbn [fold_right] in E.
    destruct (Spec.survivor session c) as [p|] eqn:Ec; [|discriminate].
    destruct (fold_right _ _ rest) as [r|]; [|discriminate].
    injection E as <-. apply Forall_app. split.
    + apply Forall_forall. intros row Hrow.
      eapply survivor_has_row; eassumption.
    + apply IH. reflexivity.
Qed.

Lemma ranked_ids_have_rows session query results out :
  Utils.compute_rankings session query results = Py.Ok out ->
  Forall (fun p => Spec.has_row session (snd p) = true) out.
Proof.
  intros H. apply compute_rankings_inv in H.
  destruct H as (expanded & b & He & _ & _ & _ & _ & _ & ->).
  apply expand_rows_have_row in He. rewrite Forall_forall in He.
  apply Forall_forall. intros p Hp.
  unfold Utils.sorted_reverse in Hp. apply sort_in in Hp.
  apply in_map_iff in Hp. destruct Hp as (row & <- & Hrow).
  simpl. apply He, Hrow.
Qed.

(** While the tables do not change between the ranking and the enrichment,
    every id of the ranking has a row and as many stories are returned as
    were asked for. *)
Lemma semantic_search_unchanged provider session query limit exclude_comments ranked :
  Utils.compute_rankings session (Str.strip query) (provider (Str.strip query))
  = Py.Ok ranked ->
  0 < limit -> limit <= Z.of_nat (List.length ranked) ->
  exists stories,
    Utils.semantic_search provider session query limit exclude_comments
    = Py.Ok stories /\
    Z.of_nat (List.length stories) = limit.
Proof.
  intros Hrank Hpos Hlen.
  pose proof (ranked_ids_have_rows _ _ _ _ Hrank) as Hrows.
  set (top := Py.slice_to ranked limit).
  assert (Ltop : Z.of_nat (List.length top) = limit)
    by (apply slice_to_length; lia).
  exists (flat_map (Spec.enriched session exclude_comments) (map snd top)).
  split.
  { unfold Utils.semantic_search. cbn zeta. rewrite Hrank. cbn [Py.bind].
    rewrite fetch_stories_spec. fold top.
    destruct top; [simpl in Ltop; lia|reflexivity]. }
  rewrite <- (length_map (fun s => Item.id (Utils.story s))).
  rewrite enriched_ids, forallb_filter_id, length_map; [exact Ltop|].
  apply forallb_forall. intros id Hid.
  apply in_map_iff in Hid. destruct Hid as (p & <- & Hp).
  rewrite Forall_forall in Hrows. apply Hrows.
  unfold top, Py.slice_to in Hp.
  destruct (limit <? 0); apply firstn_incl in Hp; exact Hp.
Qed.

(** * Concrete inputs *)

Local Open Scope string_scope.

(** C1, as stated, fails: on the example of the specification the ranking
    is not item 1, item 3, item 2. *)
Lemma rust_example_is_not_1_3_2 :
  exists out,
    Utils.compute_rankings Examples.rust_session Examples.rust_query
                           Examples.rust_candidates = Py.Ok out /\
    map snd out <> [1; 3; 2].
Proof.
  eexists. split; [vm_compute; reflexivity|]. discriminate.
Qed.

(** C1, amended: on the example of the specification the ranking is item 1,
    item 2, item 3, with the fused scores 23/20, 22/45 and 1/10.  Item 3 has
    the largest distance, the lowest score and the lowest age, so its three
    normalized signals are 0 and only its one shared word counts. *)
Theorem rust_example_ranking :
  exists out,
    Utils.compute_rankings Examples.rust_session Examples.rust_query
                           Examples.rust_candidates = Py.Ok out /\
    map snd out = [1; 2; 3] /\
    Forall2 Qeq (map fst out) [23 # 20; 22 # 45; 1 # 10]%Q /\
    map (Utils.matches Examples.rust_query)
        [ "Understanding the Rust borrow checker"; "A Go tutorial";
          "Rust async patterns" ] = [3; 0; 1].
Proof.
  eexists. split; [vm_compute; reflexivity|].
  split; [reflexivity|]. split; [|reflexivity].
  repeat constructor.
Qed.

(** C2 on a concrete session: the three stories are not listed when the
    kind is left out, and they are when the kind is [story]. *)
Lemma get_items_kind_absent_lists_no_story :
  Utils.call_get_items Examples.contains Examples.rust_session
                       Examples.keywords_none = [] /\
  map Item.id
      (Utils.get_items Examples.contains Examples.rust_session
         (Some ItemType.story) None None None None None None None None None
         0 10 None) = [1; 2; 3].
Proof. split; reflexivity. Qed.

Lemma compute_rankings_no_survivor_raises_witness :
  Utils.expand Examples.untitled_session [(7, (1 # 2)%Q)] = Py.Ok [] /\
  Utils.compute_rankings Examples.untitled_session "rust" [(7, (1 # 2)%Q)]
  = Py.Raise Py.ValueError.
Proof.
  split; [reflexivity|].
  apply (compute_rankings_no_survivor_raises Examples.untitled_session "rust"
           [(7, (1 # 2)%Q)]).
  reflexivity.
Defined.


(** Two candidates with the same fused score: the larger id comes first. *)
Lemma tie_is_broken_by_descending_id :
  exists out,
    Utils.compute_rankings Examples.tie_session "rust" Examples.tie_candidates
    = Py.Ok out /\
    map snd out = [2; 1; 3] /\
    Forall2 Qeq (map fst out) [1; 1; 0]%Q.
Proof.
  eexists. split; [vm_compute; reflexivity|].
  split; [reflexivity|]. repeat constructor.
Qed.



(** The values [normalize] gives the scores of the example. *)
Lemma normalize_scores_example :
  exists out out',
    Utils.normalize [50; 10; 5]%Q false = Py.Ok out /\
    Forall2 Qeq out [1; 1 # 9; 0]%Q /\
    Utils.normalize [50; 10; 5]%Q true = Py.Ok out' /\
    Forall2 Qeq out' [0; 8 # 9; 1]%Q.
Proof.
  do 2 eexists. split; [vm_compute; reflexivity|].
  split; [repeat constructor|].
  split; [vm_compute; reflexivity|]. repeat constructor.
Qed.

(** A constant vector divides by zero. *)
Lemma normalize_constant_raises :
  Utils.normalize [7; 7]%Q false = Py.Raise Py.ZeroDivisionError.
Proof. reflexivity. Qed.

(** C9, as stated, fails: with 51 stories and [limit=51] the answer is the
    first 50 rows of the ordering, not its first 51. *)
Lemma get_items_limit_51_returns_50 :
  let q := Utils.items_query Examples.contains Examples.many_stories
             (Some ItemType.story) None None None None None None None
             (Some SortBy.score) (Some Order.asc) None in
  let answer := Utils.get_items Examples.contains Examples.many_stories
                  (Some ItemType.story) None None None None None None None
                  (Some SortBy.score) (Some Order.asc) 0 51 None in
  List.length q = 51%nat /\
  answer = firstn 50 q /\
  answer <> firstn 51 (skipn 0 q).
Proof.
  split; [reflexivity|]. split; [vm_compute; reflexivity|].
  intros H. apply (f_equal (@List.length _)) in H.
  vm_compute in H. discriminate.
Qed.

Lemma get_items_offset_then_limit_witness :
  0 <= 2 /\ 0 <= 3 /\
  Utils.get_items Examples.contains Examples.many_stories
    (Some ItemType.story) None None None None None None None
    (Some SortBy.score) (Some Order.desc) 2 3 None =
  firstn (Z.to_nat (Z.min 3 50))
    (skipn (Z.to_nat 2)
       (Utils.items_query Examples.contains Examples.many_stories
          (Some ItemType.story) None None None None None None None
          (Some SortBy.score) (Some Order.desc) None)).
Proof.
  split; [lia|]. split; [lia|].
  apply (get_items_offset_then_limit Examples.contains Examples.many_stories);
    lia.
Defined.

(** The rows that call returns. *)
Lemma get_items_offset_then_limit_example :
  map Item.id
      (Utils.get_items Examples.contains Examples.many_stories
         (Some ItemType.story) None None None None None None None
         (Some SortBy.score) (Some Order.desc) 2 3 None) = [49; 48; 47].
Proof. vm_compute; reflexivity. Qed.

(** The listing example of the specification. *)
Lemma get_items_after_time_example :
  map Item.time
      (Utils.get_items Examples.contains
         {| items := [ Examples.a_story 1 "a" 0 300;
                       Examples.a_story 2 "b" 0 100;
                       Examples.a_story 3 "c" 0 200 ];
            kids := [] |}
         (Some ItemType.story) None None (Some 150) None None None None
         (Some SortBy.time) (Some Order.asc) 0 10 None)
  = [Some 200; Some 300].
Proof. reflexivity. Qed.

Lemma semantic_search_drops_missing_rows_witness :
  Utils.compute_rankings Examples.rust_session (Str.strip "  rust borrow checker ")
                         (Examples.rust_provider (Str.strip "  rust borrow checker "))
  = Py.Ok Examples.rust_ranking /\
  0 < 2 /\ 2 <= Z.of_nat (List.length Examples.rust_ranking) /\
  exists stories,
    Utils.semantic_search_at Examples.rust_provider Examples.rust_session
      Examples.rust_session_later "  rust borrow checker " 2 true
    = Py.Ok stories /\
    stories = flat_map (Spec.enriched Examples.rust_session_later true)
                       (map snd (Py.slice_to Examples.rust_ranking 2)) /\
    map (fun s => Item.id (Utils.story s)) stories =
      filter (Spec.has_row Examples.rust_session_later)
             (map snd (Py.slice_to Examples.rust_ranking 2)) /\
    (forall id, Spec.has_row Examples.rust_session_later id = false ->
                ~ In id (map (fun s => Item.id (Utils.story s)) stories)) /\
    ((exists id, In id (map snd (Py.slice_to Examples.rust_ranking 2)) /\
                 Spec.has_row Examples.rust_session_later id = false) ->
     Z.of_nat (List.length stories) < 2).
Proof.
  split; [vm_compute; reflexivity|].
  split; [lia|]. split; [vm_compute; discriminate|].
  apply (semantic_search_drops_missing_rows Examples.rust_provider
           Examples.rust_session Examples.rust_session_later
           "  rust borrow checker " 2 true Examples.rust_ranking).
  - vm_compute; reflexivity.
  - lia.
  - vm_compute; discriminate.
Defined.

(** Items 1 and 2 are the top two of the ranking; when the row of item 2
    is gone before the enrichment, one story is returned where two were
    asked for, and two are when nothing changed. *)
Lemma semantic_search_stale_example :
  exists stories stories',
    Utils.semantic_search_at Examples.rust_provider Examples.rust_session
      Examples.rust_session_later "  rust borrow checker " 2 true
    = Py.Ok stories /\
    map (fun s => Item.id (Utils.story s)) stories = [1] /\
    Utils.semantic_search Examples.rust_provider Examples.rust_session
      "  rust borrow checker " 2 true
    = Py.Ok stories' /\
    map (fun s => Item.id (Utils.story s)) stories' = [1; 2].
Proof.
  do 2 eexists. split; [vm_compute; reflexivity|]. split; [reflexivity|].
  split; [vm_compute; reflexivity|]. reflexivity.
Qed.

(** With nothing to enrich, [cursor] is never bound. *)
Lemma semantic_search_limit_0_raises :
  Utils.semantic_search Examples.rust_provider
    Examples.rust_session Examples.rust_query 0 false
  = Py.Raise Py.UnboundLocalError.
Proof. vm_compute; reflexivity. Qed.

(** The preview of the example thread. *)
Lemma get_comments_text_example :
  Utils.get_comments_text Examples.thread_session 1
  = ["first"; "early reply"; "third"].
Proof. reflexivity. Qed.

(** * Further properties of the listing *)

Local Close Scope string_scope.
Local Open Scope Z_scope.

Lemma cmp_leb_iff (col : option Z) (v : Z) :
  Sql.cmp Z.leb col v = true <-> Filters.column col (fun x => x <= v).
Proof.
  unfold Sql.cmp, Filters.column. destruct col as [c|].
  - rewrite Z.leb_le. split.
    + intros H. exists c. split; [reflexivity|exact H].
    + intros (x & E & H). injection E as ->. exact H.
  - split; [discriminate|]. intros (x & E & _). discriminate.
Qed.

Lemma cmp_geb_iff (col : option Z) (v : Z) :
  Sql.cmp Z.geb col v = true <-> Filters.column col (fun x => v <= x).
Proof.
  unfold Sql.cmp, Filters.column. destruct col as [c|].
  - rewrite Z.geb_le. split.
    + intros H. exists c. split; [reflexivity|exact H].
    + intros (x & E & H). injection E as ->. exact H.
  - split; [discriminate|]. intros (x & E & _). discriminate.
Qed.

Lemma cmp_contains_iff (contains : string -> string -> bool)
      (col : option string) (q : string) :
  Sql.cmp contains col q = true <->
  Filters.column col (fun t => contains t q = true).
Proof.
  unfold Sql.cmp, Filters.column. destruct col as [c|].
  - split.
    + intros H. exists c. split; [reflexivity|exact H].
    + intros (x & E & H). injection E as ->. exact H.
  - split; [discriminate|]. intros (x & E & _). discriminate.
Qed.

Lemma cmp_string_iff (col : option string) (b : string) :
  Sql.cmp String.eqb col b = true <-> col = Some b.
Proof.
  unfold Sql.cmp. destruct col as [c|].
  - rewrite String.eqb_eq. split; congruence.
  - split; discriminate.
Qed.

Lemma item_type_eqb_eq (a b : ItemType.t) : ItemType.eqb a b = true <-> a = b.
Proof. destruct a, b; simpl; split; congruence. Qed.

Lemma eq_or_is_null_type (col v : option ItemType.t) :
  Sql.eq_or_is_null ItemType.eqb col v = true <-> col = v.
Proof.
  unfold Sql.eq_or_is_null, Sql.cmp. destruct v as [k|], col as [c|].
  - rewrite item_type_eqb_eq. split; congruence.
  - split; discriminate.
  - split; discriminate.
  - tauto.
Qed.

Lemma filter_if_when {B : Type} (arg : option B) (p : B -> Item.t -> bool)
      (P : B -> Item.t -> Prop) (rows : list Item.t) (i : Item.t) :
  (forall v, p v i = true <-> P v i) ->
  (In i (Utils.filter_if arg p rows) <->
   In i rows /\ Filters.when arg (fun v => P v i)).
Proof.
  intros H. rewrite filter_if_spec. destruct arg as [v|]; simpl.
  - now rewrite H.
  - tauto.
Qed.

Section MoreListingFacts.
Variable contains : string -> string -> bool.

(** The rows of the query before [offset] and [limit] are the rows of the
    table that pass every filter. *)
Lemma items_query_in session item_type by_ before_time after_time
      min_score max_score min_comments max_comments sort_by sort_order query i :
  In i (Utils.items_query contains session item_type by_ before_time after_time
          min_score max_score min_comments max_comments sort_by sort_order query)
  <->
  In i (items session) /\
  Filters.passes contains item_type by_ before_time after_time
                 min_score max_score min_comments max_comments query i.
Proof.
  unfold Utils.items_query, Filters.passes.
  set (q0 := filter (fun i => Sql.eq_or_is_null ItemType.eqb (Item.type i) item_type)
                    (items session)).
  set (q1 := Utils.filter_if by_ _ q0).
  set (q2 := Utils.filter_if before_time _ q1).
  set (q3 := Utils.filter_if after_time _ q2).
  set (q4 := Utils.filter_if min_score _ q3).
  set (q5 := Utils.filter_if max_score _ q4).
  set (q6 := Utils.filter_if min_comments _ q5).
  set (q7 := Utils.filter_if max_comments _ q6).
  set (q8 := Utils.filter_if query _ q7).
  assert (Hsort : In i (match sort_by with
                        | Some sb =>
                            match sort_order with
                            | Some Order.asc => Sql.order_by_asc (Utils.sort_column sb) q8
                            | Some Order.desc => Sql.order_by_desc (Utils.sort_column sb) q8
                            | None => q8
                            end
                        | None => q8
                        end) <-> In i q8).
  { destruct sort_by as [sb|]; [|tauto].
    destruct sort_order as [[|]|]; [| |tauto];
      unfold Sql.order_by_asc, Sql.order_by_desc; apply sort_in. }
  rewrite Hsort. subst q8 q7 q6 q5 q4 q3 q2 q1 q0.
  rewrite (filter_if_when query _
             (fun q i => Filters.column (Item.title i) (fun t => contains t q = true) \/
                         Filters.column (Item.text i) (fun t => contains t q = true))).
  2:{ intros v. rewrite Bool.orb_true_iff, !cmp_contains_iff. tauto. }
  rewrite (filter_if_when max_comments _
             (fun v i => Filters.column (Item.descendants i) (fun x => x <= v)))
    by (intros; apply cmp_leb_iff).
  rewrite (filter_if_when min_comments _
             (fun v i => Filters.column (Item.descendants i) (fun x => v <= x)))
    by (intros; apply cmp_geb_iff).
  rewrite (filter_if_when max_score _
             (fun v i => Filters.column (Item.score i) (fun x => x <= v)))
    by (intros; apply cmp_leb_iff).
  rewrite (filter_if_when min_score _
             (fun v i => Filters.column (Item.score i) (fun x => v <= x)))
    by (intros; apply cmp_geb_iff).
  rewrite (filter_if_when after_time _
             (fun v i => Filters.column (Item.time i) (fun x => v <= x)))
    by (intros; apply cmp_geb_iff).
  rewrite (filter_if_when before_time _
             (fun v i => Filters.column (Item.time i) (fun x => x <= v)))
    by (intros; apply cmp_leb_iff).
  rewrite (filter_if_when by_ _ (fun b i => Item.by_ i = Some b))
    by (intros; apply cmp_string_iff).
  rewrite filter_In, eq_or_is_null_type. tauto.
Qed.

(** The page that [get_items] returns for a skip and a limit that are not
    negative. *)
Lemma get_items_page session item_type by_ before_time after_time
      min_score max_score min_comments max_comments sort_by sort_order
      skip limit query :
  0 <= skip -> 0 <= limit ->
  Utils.get_items contains session item_type by_ before_time after_time
    min_score max_score min_comments max_comments sort_by sort_order
    skip limit query =
  firstn (Z.to_nat (Z.min limit 50))
    (skipn (Z.to_nat skip)
       (Utils.items_query contains session item_type by_ before_time
          after_time min_score max_score min_comments max_comments
          sort_by sort_order query)).
Proof.
  intros Hs Hl. unfold Utils.get_items, Utils.MAX_NUM, Sql.offset.
  destruct (Z.gtb_spec limit 50) as [Hgt|Hle].
  - rewrite limit_nonneg by lia. rewrite Z.min_r by lia. reflexivity.
  - rewrite limit_nonneg by lia. rewrite Z.min_l by lia. reflexivity.
Qed.

(** X1: the listing is exactly the conjunction of its filters.  Before
    the offset and the limit, the rows of the query are the rows of the
    table whose kind is the one asked for and that pass every filter that
    is given; every row that [get_items] returns is such a row. *)
Theorem get_items_conjunction_of_filters :
  forall session item_type by_ before_time after_time min_score max_score
         min_comments max_comments sort_by sort_order skip limit query,
    (forall i,
        In i (Utils.items_query contains session item_type by_ before_time
                after_time min_score max_score min_comments max_comments
                sort_by sort_order query) <->
        In i (items session) /\
        Filters.passes contains item_type by_ before_time after_time
                       min_score max_score min_comments max_comments query i) /\
    Forall (fun i =>
              In i (items session) /\
              Filters.passes contains item_type by_ before_time after_time
                             min_score max_score min_comments max_comments
                             query i)
           (Utils.get_items contains session item_type by_ before_time
              after_time min_score max_score min_comments max_comments
              sort_by sort_order skip limit query).
Proof.
  intros. split.
  - intros i. apply items_query_in.
  - apply Forall_forall. intros i Hi.
    apply get_items_incl in Hi. apply items_query_in in Hi. exact Hi.
Qed.

End MoreListingFacts.

Lemma order_by_desc_sorted {A : Type} (key : A -> option Z) (rows : list A) :
  StronglySorted (fun x y => Spec.display_le (key y) (key x))
                 (Sql.order_by_desc key rows).
Proof.
  unfold Sql.order_by_desc.
  apply StronglySorted_weaken
    with (R := Stable.before (fun a b => Sql.key_lt (key b) (key a))).
  - intros x y H. apply key_lt_false. exact H.
  - apply sort_sorted.
    + intros x y. destruct (key x), (key y); simpl; try congruence.
      rewrite Z.ltb_lt, Z.ltb_ge. lia.
    + intros x y z. unfold Stable.before.
      rewrite !key_lt_false.
      destruct (key x), (key y), (key z); simpl; try tauto. lia.
Qed.

Lemma StronglySorted_skipn {A : Type} (R : A -> A -> Prop) (n : nat) (l : list A) :
  StronglySorted R l -> StronglySorted R (skipn n l).
Proof.
  revert l. induction n as [|n IH]; intros l H; [exact H|].
  destruct l as [|x r]; [exact H|].
  simpl. apply IH. now inversion H.
Qed.

Lemma StronglySorted_firstn {A : Type} (R : A -> A -> Prop) (n : nat) (l : list A) :
  StronglySorted R l -> StronglySorted R (firstn n l).
Proof.
  revert l. induction n as [|n IH]; intros l H; [constructor|].
  destruct l as [|x r]; [constructor|].
  simpl. inversion H as [|? ? Hr Hx]; subst. constructor.
  - apply IH, Hr.
  - apply Forall_forall. intros y Hy. apply firstn_incl in Hy.
    rewrite Forall_forall in Hx. apply Hx, Hy.
Qed.

Lemma StronglySorted_limit {A : Type} (R : A -> A -> Prop) (n : Z) (l : list A) :
  StronglySorted R l -> StronglySorted R (Sql.limit n l).
Proof.
  intros H. unfold Sql.limit. destruct (n <? 0); [exact H|].
  apply StronglySorted_firstn, H.
Qed.

Lemma firstn_firstn_skipn {A : Type} (n m : nat) (l : list A) :
  firstn n l ++ firstn m (skipn n l) = firstn (n + m) l.
Proof.
  revert l. induction n as [|n IH]; intros l; [reflexivity|].
  destruct l as [|x r]; simpl.
  - now rewrite firstn_nil.
  - now rewrite IH.
Qed.

Lemma NoDup_map_firstn {A B : Type} (f : A -> B) (n : nat) (l : list A) :
  NoDup (map f l) -> NoDup (map f (firstn n l)).
Proof.
  intros H. rewrite <- (firstn_skipn n l), map_app in H.
  apply NoDup_app_remove_r in H. exact H.
Qed.

Lemma NoDup_map_skipn {A B : Type} (f : A -> B) (n : nat) (l : list A) :
  NoDup (map f l) -> NoDup (map f (skipn n l)).
Proof.
  intros H. rewrite <- (firstn_skipn n l), map_app in H.
  apply NoDup_app_remove_l in H. exact H.
Qed.

(** Rows with distinct keys keep distinct keys when some are filtered
    out. *)
Lemma filter_keeps_distinct_keys {K T : Type} (key : T -> K) (keep : T -> bool)
      (rows : list T) (Hkeys : NoDup (map key rows)) :
  NoDup (map key (filter keep rows)).
Proof.
  induction rows as [|x r IH]; simpl; [constructor|].
  simpl in Hkeys. inversion Hkeys as [|? ? Hx Hr]; subst.
  destruct (keep x); simpl; [|apply IH, Hr].
  constructor; [|apply IH, Hr].
  intros Hin. apply Hx. apply in_map_iff in Hin.
  destruct Hin as (y & E & Hy). apply filter_In in Hy.
  apply in_map_iff. exists y. tauto.
Qed.

Lemma NoDup_map_sort {A B : Type} (f : A -> B) (lt : A -> A -> bool) (l : list A) :
  NoDup (map f l) -> NoDup (map f (Stable.sort lt l)).
Proof.
  apply Permutation_NoDup, Permutation_map. symmetry. apply sort_perm.
Qed.

Lemma NoDup_map_filter_if {B : Type} (arg : option B) (p : B -> Item.t -> bool)
      (rows : list Item.t) :
  NoDup (map Item.id rows) -> NoDup (map Item.id (Utils.filter_if arg p rows)).
Proof.
  destruct arg; simpl; [apply filter_keeps_distinct_keys|tauto].
Qed.

Section ListingOrderFacts.
Variable contains : string -> string -> bool.

(** X2: when a sort key and a sort order are given, the rows that
    [get_items] returns are in that order of the key: ascending with the
    rows that have no value first, or descending with them last. *)
Theorem get_items_sorted :
  forall session item_type by_ before_time after_time min_score max_score
         min_comments max_comments sort_by sort_order skip limit query,
    StronglySorted (Filters.ordered sort_by sort_order)
      (Utils.get_items contains session item_type by_ before_time after_time
         min_score max_score min_comments max_comments
         (Some sort_by) (Some sort_order) skip limit query).
Proof.
  intros. unfold Utils.get_items.
  apply StronglySorted_limit. unfold Sql.offset. apply StronglySorted_skipn.
  unfold Utils.items_query, Filters.ordered.
  destruct sort_order.
  - apply order_by_asc_sorted.
  - apply order_by_desc_sorted.
Qed.

(** X3: bounds that exclude each other are no error, the listing is
    empty: a minimum score above the maximum score, an [after_time] above
    the [before_time], or a minimum comment count above the maximum. *)
Theorem get_items_contradictory_bounds :
  forall session item_type by_ sort_by sort_order skip limit query
         (lo hi : Z) (a b c d : option Z),
    hi < lo ->
    Utils.get_items contains session item_type by_ a b (Some lo) (Some hi) c d
      sort_by sort_order skip limit query = [] /\
    Utils.get_items contains session item_type by_ (Some hi) (Some lo) a b c d
      sort_by sort_order skip limit query = [] /\
    Utils.get_items contains session item_type by_ a b c d (Some lo) (Some hi)
      sort_by sort_order skip limit query = [].
Proof.
  intros * Hlt.
  assert (Hnone : forall l : list Item.t, (forall i, ~ In i l) -> l = []).
  { intros [|x r] H; [reflexivity|]. exfalso. apply (H x). now left. }
  split; [|split]; apply Hnone; intros i Hi;
    apply get_items_incl, items_query_in in Hi;
    destruct Hi as (_ & _ & _ & Hbt & Hat & Hmin & Hmax & Hcmin & Hcmax & _);
    simpl in *.
  - destruct Hmin as (x & E & Hx), Hmax as (y & E' & Hy).
    rewrite E in E'. injection E' as <-. lia.
  - destruct Hbt as (x & E & Hx), Hat as (y & E' & Hy).
    rewrite E in E'. injection E' as <-. lia.
  - destruct Hcmin as (x & E & Hx), Hcmax as (y & E' & Hy).
    rewrite E in E'. injection E' as <-. lia.
Qed.

(** X4: consecutive pages join: for a skip [k] and limits [n] and [m] that
    are not negative, with [n + m <= 50], the page of [n] rows at [k]
    followed by the page of [m] rows at [k + n] is the page of [n + m] rows
    at [k]. *)
Theorem get_items_pages_join :
  forall session item_type by_ before_time after_time min_score max_score
         min_comments max_comments sort_by sort_order query (k n m : Z),
    0 <= k -> 0 <= n -> 0 <= m -> n + m <= 50 ->
    Utils.get_items contains session item_type by_ before_time after_time
      min_score max_score min_comments max_comments sort_by sort_order
      k n query ++
    Utils.get_items contains session item_type by_ before_time after_time
      min_score max_score min_comments max_comments sort_by sort_order
      (k + n) m query =
    Utils.get_items contains session item_type by_ before_time after_time
      min_score max_score min_comments max_comments sort_by sort_order
      k (n + m) query.
Proof.
  intros * Hk Hn Hm Hnm.
  rewrite !get_items_page by lia.
  rewrite !Z.min_l by lia.
  rewrite !Z2Nat.inj_add by lia.
  rewrite (Nat.add_comm (Z.to_nat k) (Z.to_nat n)), <- skipn_skipn.
  apply firstn_firstn_skipn.
Qed.

(** X5: when the ids of the table are distinct, as the primary key makes
    them, no item is listed twice. *)
Theorem get_items_no_duplicates :
  forall session item_type by_ before_time after_time min_score max_score
         min_comments max_comments sort_by sort_order skip limit query,
    NoDup (map Item.id (items session)) ->
    NoDup (map Item.id
             (Utils.get_items contains session item_type by_ before_time
                after_time min_score max_score min_comments max_comments
                sort_by sort_order skip limit query)).
Proof.
  intros * H. unfold Utils.get_items, Sql.limit, Sql.offset.
  assert (Hq : NoDup (map Item.id
                        (Utils.items_query contains session item_type by_
                           before_time after_time min_score max_score
                           min_comments max_comments sort_by sort_order query))).
  { unfold Utils.items_query.
    assert (Hf : forall q, NoDup (map Item.id q) ->
                 NoDup (map Item.id
                   match sort_by with
                   | Some sb =>
                       match sort_order with
                       | Some Order.asc => Sql.order_by_asc (Utils.sort_column sb) q
                       | Some Order.desc => Sql.order_by_desc (Utils.sort_column sb) q
                       | None => q
                       end
                   | None => q
                   end)).
    { intros q Hq. destruct sort_by as [sb|]; [|exact Hq].
      destruct sort_order as [[|]|]; [| |exact Hq];
        unfold Sql.order_by_asc, Sql.order_by_desc; apply NoDup_map_sort, Hq. }
    apply Hf. repeat apply NoDup_map_filter_if.
    apply filter_keeps_distinct_keys, H. }
  destruct (_ <? 0).
  - apply NoDup_map_skipn, Hq.
  - apply NoDup_map_firstn, NoDup_map_skipn, Hq.
Qed.

End ListingOrderFacts.

(** * Further properties of the normalization *)

Local Open Scope Q_scope.





Lemma for_raises {A S : Type} (x : A) (r : list A) (s : S)
      (body : S -> A -> Py.result S) (e : Py.exn) :
  body s x = Py.Raise e -> Utils.for_ (x :: r) s body = Py.Raise e.
Proof. intros H. simpl. now rewrite H. Qed.

(** On a vector that is not empty, [normalize] either divides by zero, when
    the vector is constant, or returns the normalized vector. *)
Lemma normalize_cases (values : list Q) (reverse : bool) :
  values <> [] ->
  (Signal.constant values /\
   Utils.normalize values reverse = Py.Raise Py.ZeroDivisionError) \/
  (Signal.varied values /\
   exists lo hi,
     Spec.is_min lo values /\ Spec.is_max hi values /\ lo < hi /\
     Utils.normalize values reverse
     = Py.Ok (Spec.normalized lo hi reverse values)).
Proof.
  intros Hne.
  destruct (py_min_total values Hne) as [lo Emin].
  destruct (py_max_total values Hne) as [hi Emax].
  pose proof (py_min_spec _ _ Emin) as Hmin.
  pose proof (py_max_spec _ _ Emax) as Hmax.
  destruct (Qlt_le_dec lo hi) as [Hlt|Hle].
  - right. split.
    + exists lo, hi. destruct Hmin as [Hlo _], Hmax as [Hhi _].
      repeat split; try assumption. lra.
    + exists lo, hi. repeat (split; [assumption|]).
      apply normalize_total; assumption.
  - left. destruct Hmin as [_ Hlo], Hmax as [_ Hhi].
    rewrite Forall_forall in Hlo, Hhi. split.
    + intros x y Hx Hy.
      pose proof (Hlo x Hx). pose proof (Hhi x Hx).
      pose proof (Hlo y Hy). pose proof (Hhi y Hy). lra.
    + unfold Utils.normalize. rewrite Emin, Emax. cbn [Py.bind].
      destruct values as [|v r]; [congruence|].
      unfold Utils.comprehension.
      rewrite (for_raises v r [] _ Py.ZeroDivisionError); [reflexivity|].
      unfold Utils.truediv.
      assert (E : hi - lo == 0).
      { pose proof (Hlo v (or_introl eq_refl)).
        pose proof (Hhi v (or_introl eq_refl)). lra. }
      apply Qeq_eq_bool in E. rewrite E. reflexivity.
Qed.

Lemma constant_not_varied (values : list Q) :
  Signal.constant values -> Signal.varied values -> False.
Proof.
  intros Hc (x & y & Hx & Hy & Hxy). apply Hxy, Hc; assumption.
Qed.

(** X6: [normalize] fails in two cases only: on an empty vector, with
    [ValueError] (from [min]), and on a vector whose values are all equal,
    a single value included, with [ZeroDivisionError]. *)
Theorem normalize_raises_iff :
  forall (values : list Q) (reverse : bool) (e : Py.exn),
    Utils.normalize values reverse = Py.Raise e <->
    (values = [] /\ e = Py.ValueError) \/
    (values <> [] /\ Signal.constant values /\ e = Py.ZeroDivisionError).
Proof.
  intros values reverse e. destruct values as [|v r].
  - simpl. split.
    + intros H. injection H as <-. now left.
    + intros [[_ ->]|[H _]]; [reflexivity|congruence].
  - assert (Hne : v :: r <> []) by discriminate.
    destruct (normalize_cases (v :: r) reverse Hne)
      as [[Hc E]|[Hv (lo & hi & _ & _ & _ & E)]]; rewrite E.
    + split.
      * intros H. injection H as <-. right. repeat split; assumption.
      * intros [[H _]|(_ & _ & ->)]; [discriminate|reflexivity].
    + split; [discriminate|].
      intros [[H _]|(_ & Hc & _)]; [discriminate|].
      exfalso. eapply constant_not_varied; eassumption.
Qed.




(** * Further properties of the ranking *)

Lemma survivor_without_row session (c : Z * Q) :
  Spec.has_row session (fst c) = false -> Spec.survivor session c = None.
Proof.
  unfold Spec.has_row, Spec.survivor, Utils.fetch_title_score_time.
  rewrite fetchone_where_id. intros H.
  destruct (find _ (items session)) as [i|] eqn:E; [|reflexivity].
  apply find_some in E.
  assert (Hx : existsb (fun i => (Item.id i =? fst c)%Z) (items session) = true)
    by (apply existsb_exists; exists i; exact E).
  congruence.
Qed.

Lemma unzip3_signals (expanded : list Utils.Expanded) :
  expanded <> [] ->
  Utils.unzip3
    (map (fun '(_, distance, _, score, age) =>
            (inject_Z score, inject_Z age, distance)) expanded) =
  Py.Ok (map Spec.row_score expanded, map Spec.row_age expanded,
         map Spec.row_distance expanded).
Proof.
  intros Hne.
  destruct (signal_vectors expanded) as (Es & Ea & Ed). cbn zeta in Es, Ea, Ed.
  rewrite <- Es, <- Ea, <- Ed.
  destruct expanded as [|r rest]; [congruence|reflexivity].
Qed.

Lemma signal_not_empty (signal : Utils.Expanded -> Q)
      (expanded : list Utils.Expanded) (Hne : expanded <> []) :
  map signal expanded <> [].
Proof. destruct expanded; [congruence|discriminate]. Qed.

(** X9: a candidate whose id has no row in the item store is not dropped:
    unpacking the [None] that [fetchone] returns raises [TypeError], and
    the whole ranking fails. *)
Theorem compute_rankings_missing_row_raises :
  forall session query (results : list (Z * Q)) id distance,
    In (id, distance) results ->
    Spec.has_row session id = false ->
    Utils.compute_rankings session query results = Py.Raise Py.TypeError.
Proof.
  intros session query results id distance Hin Hrow.
  apply (compute_rankings_missing_row session query results (id, distance) Hin).
  apply survivor_without_row. exact Hrow.
Qed.

(** X10: when candidates survive and one of the three signals is the same
    for all of them (their scores, their ages or their distances), the
    ranking fails with [ZeroDivisionError]; a single surviving candidate is
    such a case. *)
Theorem compute_rankings_degenerate_signal :
  forall session query results expanded,
    Utils.expand session results = Py.Ok expanded ->
    expanded <> [] ->
    Signal.constant (map Spec.row_score expanded) \/
    Signal.constant (map Spec.row_age expanded) \/
    Signal.constant (map Spec.row_distance expanded) ->
    Utils.compute_rankings session query results
    = Py.Raise Py.ZeroDivisionError.
Proof.
  intros session query results expanded He Hne Hc.
  unfold Utils.compute_rankings. rewrite He. cbn [Py.bind].
  rewrite (unzip3_signals expanded Hne). cbn [Py.bind].
  destruct (normalize_cases (map Spec.row_score expanded) false
              (signal_not_empty _ _ Hne))
    as [[_ E]|[Hv (lo & hi & _ & _ & _ & E)]]; rewrite E; [reflexivity|].
  cbn [Py.bind].
  destruct (normalize_cases (map Spec.row_age expanded) false
              (signal_not_empty _ _ Hne))
    as [[_ E']|[Hv' (lo' & hi' & _ & _ & _ & E')]]; rewrite E'; [reflexivity|].
  cbn [Py.bind].
  destruct (normalize_cases (map Spec.row_distance expanded) true
              (signal_not_empty _ _ Hne))
    as [[_ E'']|[Hv'' _]]; [rewrite E''; reflexivity|].
  exfalso. destruct Hc as [Hc|[Hc|Hc]];
    eapply constant_not_varied; eassumption.
Qed.

Lemma varied_rows (f : Utils.Expanded -> Q) (expanded : list Utils.Expanded) :
  Signal.varied (map f expanded) ->
  exists r r', In r expanded /\ In r' expanded /\ ~ (f r == f r')%Q.
Proof.
  intros (x & y & Hx & Hy & Hxy).
  apply in_map_iff in Hx. destruct Hx as (r & <- & Hr).
  apply in_map_iff in Hy. destruct Hy as (r' & <- & Hr').
  exists r, r'. tauto.
Qed.

Lemma bounds_varied (lo hi : Q) (values : list Q) :
  Spec.is_min lo values -> Spec.is_max hi values -> (lo < hi)%Q ->
  Signal.varied values.
Proof.
  intros [Hlo _] [Hhi _] Hlt. exists lo, hi.
  split; [exact Hlo|]. split; [exact Hhi|]. lra.
Qed.

(** X11: [compute_rankings] returns a ranking exactly when every candidate
    has a row and each of the three signals (score, age, distance) takes
    two distinct values over the candidates that have a title. *)
Theorem compute_rankings_returns_iff :
  forall session query results,
    (exists out, Utils.compute_rankings session query results = Py.Ok out) <->
    (exists expanded,
        Utils.expand session results = Py.Ok expanded /\
        Signal.varied (map Spec.row_score expanded) /\
        Signal.varied (map Spec.row_age expanded) /\
        Signal.varied (map Spec.row_distance expanded)).
Proof.
  intros session query results. split.
  - intros (out & H). apply compute_rankings_inv in H.
    destruct H as (expanded & b & He & _ & Hb & Hs & Ha & Hd & _).
    destruct Hb as (Hs1 & Hs2 & Ha1 & Ha2 & Hd1 & Hd2).
    exists expanded. split; [exact He|].
    split; [exact (bounds_varied _ _ _ Hs1 Hs2 Hs)|].
    split; [exact (bounds_varied _ _ _ Ha1 Ha2 Ha)|].
    exact (bounds_varied _ _ _ Hd1 Hd2 Hd).
  - intros (expanded & He & Hs & Ha & Hd).
    apply varied_rows in Hs. destruct Hs as (r1 & r2 & H1 & H2 & Hs).
    apply varied_rows in Ha. destruct Ha as (r3 & r4 & H3 & H4 & Ha).
    apply varied_rows in Hd. destruct Hd as (r5 & r6 & H5 & H6 & Hd).
    exact (compute_rankings_returns session query results expanded
             r1 r2 r3 r4 r5 r6 He H1 H2 Hs H3 H4 Ha H5 H6 Hd).
Qed.

Lemma survivor_ids session (c : Z * Q) p :
  Spec.survivor session c = Some p ->
  map Spec.row_id p = if Ranking.titled session (fst c) then [fst c] else [].
Proof.
  unfold Spec.survivor, Ranking.titled, Utils.fetch_title_score_time.
  rewrite fetchone_where_id.
  destruct (find _ (items session)) as [i|]; simpl; [|discriminate].
  destruct (Item.title i); intros H; injection H as <-; reflexivity.
Qed.

(** The candidates that survive the first loop are, in order, the
    candidates that have a title. *)
Lemma expand_ids session (results : list (Z * Q)) expanded :
  Utils.expand session results = Py.Ok expanded ->
  map Spec.row_id expanded =
  map fst (filter (fun c => Ranking.titled session (fst c)) results).
Proof.
  unfold Utils.expand. rewrite expand_from.
  destruct (fold_right _ _ results) as [kept|] eqn:E; [|discriminate].
  intros H. injection H as <-. simpl.
  revert kept E. induction results as [|c rest IH]; intros kept E.
  - injection E as <-. reflexivity.
  - cbn [fold_right] in E.
    destruct (Spec.survivor session c) as [p|] eqn:Ec; [|discriminate].
    destruct (fold_right _ _ rest) as [r|]; [|discriminate].
    injection E as <-. rewrite map_app, (IH r eq_refl).
    rewrite (survivor_ids _ _ _ Ec). cbn [filter].
    destruct (Ranking.titled session (fst c)); reflexivity.
Qed.

(** X12: a ranking holds the candidates that have a title, and no others:
    its ids are a rearrangement of the ids of those candidates, one entry
    for each occurrence of a candidate, so that a candidate without a title
    is never ranked and one that the provider returned twice is ranked
    twice. *)
Theorem compute_rankings_ranks_titled_candidates :
  forall session query results out,
    Utils.compute_rankings session query results = Py.Ok out ->
    Permutation (map snd out)
      (map fst (filter (fun c => Ranking.titled session (fst c)) results)) /\
    Forall (fun c => Spec.has_row session (fst c) = true) results.
Proof.
  intros session query results out H.
  apply compute_rankings_inv in H.
  destruct H as (expanded & b & He & _ & _ & _ & _ & _ & ->).
  split.
  - rewrite <- (expand_ids _ _ _ He).
    unfold Utils.sorted_reverse. rewrite sort_perm, map_map.
    apply Permutation_refl.
  - apply Forall_forall. intros c Hc.
    destruct (Spec.has_row session (fst c)) eqn:Hrow; [reflexivity|].
    exfalso. unfold Utils.expand in He. rewrite expand_from in He.
    assert (Hn : fold_right
                   (fun c rest =>
                      match Spec.survivor session c, rest with
                      | Some p, Some r => Some (p ++ r)
                      | _, _ => None
                      end)
                   (Some []) results = None).
    { clear -Hc Hrow. induction results as [|d rest IH]; [destruct Hc|].
      cbn [fold_right]. destruct Hc as [->|Hc].
      - now rewrite (survivor_without_row _ _ Hrow).
      - rewrite (IH Hc). destruct (Spec.survivor session d); reflexivity. }
    rewrite Hn in He. discriminate.
Qed.

Lemma find_map_fill (id : Z) (l : list Item.t) :
  find (fun i => (Item.id i =? id)%Z) (map Ranking.fill l) =
  option_map Ranking.fill (find (fun i => (Item.id i =? id)%Z) l).
Proof.
  induction l as [|i r IH]; simpl; [reflexivity|].
  destruct (Item.id i =? id)%Z; [reflexivity|exact IH].
Qed.

(** X13: a missing score counts as a score of 1 and a missing time as a
    time of 0: the ranking of a store is the ranking of the store in which
    the missing scores and times are filled in with these values. *)
Theorem compute_rankings_defaults :
  forall session query results,
    Utils.compute_rankings (Ranking.with_defaults session) query results =
    Utils.compute_rankings session query results.
Proof.
  intros session query results. unfold Utils.compute_rankings.
  assert (E : Utils.expand (Ranking.with_defaults session) results =
              Utils.expand session results).
  { unfold Utils.expand. apply for_ext. intros expanded [story_id distance] _.
    unfold Utils.fetch_title_score_time. rewrite !fetchone_where_id.
    unfold Ranking.with_defaults. cbn [items]. rewrite find_map_fill.
    destruct (find _ (items session)) as [i|]; [|reflexivity].
    cbn [option_map]. unfold Ranking.fill. cbn.
    destruct (Item.title i); [|reflexivity].
    destruct (Item.score i), (Item.time i); reflexivity. }
  rewrite E. reflexivity.
Qed.



Lemma matches_le_query_words (query title : string) :
  (0 <= Utils.matches query title
   <= Z.of_nat (List.length (Str.to_set (Spec.words query))))%Z.
Proof.
  unfold Utils.matches, Str.intersection. fold (Spec.words query).
  split; [lia|]. apply inj_le, filter_length_le.
Qed.


(** * Further properties of the keyword overlap *)

Lemma mem_in (w : string) (l : list string) : Str.mem w l = true <-> In w l.
Proof.
  unfold Str.mem. rewrite existsb_exists. split.
  - intros (x & Hx & E). apply String.eqb_eq in E. now subst.
  - intros H. exists w. split; [exact H|apply String.eqb_refl].
Qed.

Lemma intersection_in (a b : list string) (w : string) :
  In w (Str.intersection a b) <-> In w a /\ In w b.
Proof. unfold Str.intersection. now rewrite filter_In, mem_in. Qed.

Lemma matches_le_title_words (query title : string) :
  (Utils.matches query title
   <= Z.of_nat (List.length (Str.to_set (Spec.words title))))%Z.
Proof.
  unfold Utils.matches. fold (Spec.words query) (Spec.words title).
  apply inj_le, NoDup_incl_length.
  - unfold Str.intersection, Str.to_set. apply NoDup_filter, NoDup_nodup.
  - intros w Hw. apply intersection_in in Hw. tauto.
Qed.

(** X16: the overlap does not depend on which of the two texts is the
    query: [matches a b = matches b a].  It is not negative and not larger
    than the number of distinct words of either text. *)
Theorem matches_symmetric :
  forall a b : string,
    Utils.matches a b = Utils.matches b a /\
    (0 <= Utils.matches a b)%Z /\
    (Utils.matches a b
     <= Z.of_nat (List.length (Str.to_set (Spec.words a))))%Z /\
    (Utils.matches a b
     <= Z.of_nat (List.length (Str.to_set (Spec.words b))))%Z.
Proof.
  intros a b. split; [|split; [|split]].
  - unfold Utils.matches. fold (Spec.words a) (Spec.words b). f_equal.
    apply Permutation_length, NoDup_Permutation.
    + unfold Str.intersection, Str.to_set. apply NoDup_filter, NoDup_nodup.
    + unfold Str.intersection, Str.to_set. apply NoDup_filter, NoDup_nodup.
    + intros w. rewrite !intersection_in. tauto.
  - apply matches_le_query_words.
  - apply matches_le_query_words.
  - apply matches_le_title_words.
Qed.

Lemma is_space_lower_char (c : ascii) :
  Str.is_space (Str.lower_char c) = Str.is_space c.
Proof.
  destruct c as [[] [] [] [] [] [] [] []]; reflexivity.
Qed.

Lemma lower_char_idem (c : ascii) :
  Str.lower_char (Str.lower_char c) = Str.lower_char c.
Proof.
  destruct c as [[] [] [] [] [] [] [] []]; reflexivity.
Qed.

Lemma lower_idem (s : string) : Str.lower (Str.lower s) = Str.lower s.
Proof.
  induction s as [|c r IH]; simpl; [reflexivity|].
  now rewrite lower_char_idem, IH.
Qed.

Lemma lower_of_list (l : list ascii) :
  Str.lower (string_of_list_ascii l) = string_of_list_ascii (map Str.lower_char l).
Proof.
  induction l as [|c r IH]; simpl; [reflexivity|]. now rewrite IH.
Qed.

Lemma rev_word_lower (cur : list ascii) :
  Str.rev_word (map Str.lower_char cur) = Str.lower (Str.rev_word cur).
Proof.
  unfold Str.rev_word. now rewrite lower_of_list, map_rev.
Qed.

Lemma flush_lower (cur : list ascii) :
  Str.flush (map Str.lower_char cur) = map Str.lower (Str.flush cur).
Proof.
  destruct cur as [|c r]; [reflexivity|].
  change (Str.flush (map Str.lower_char (c :: r)))
    with [Str.rev_word (map Str.lower_char (c :: r))].
  now rewrite rev_word_lower.
Qed.

Lemma split_from_lower (s : string) (cur : list ascii) :
  Str.split_from (map Str.lower_char cur) (Str.lower s) =
  map Str.lower (Str.split_from cur s).
Proof.
  revert cur. induction s as [|c r IH]; intros cur; cbn [Str.lower Str.split_from].
  - apply flush_lower.
  - rewrite is_space_lower_char. destruct (Str.is_space c).
    + rewrite map_app, flush_lower. f_equal. apply (IH []).
    + apply (IH (c :: cur)).
Qed.

Lemma words_lower (s : string) : Spec.words (Str.lower s) = Spec.words s.
Proof.
  unfold Spec.words, Str.split.
  pose proof (split_from_lower s []) as E. cbn [map] in E.
  rewrite E, map_map.
  apply map_ext. intros w. apply lower_idem.
Qed.

(** X17: the overlap ignores the case of the letters: lower-casing the
    query or the title beforehand does not change it. *)
Theorem matches_ignores_case :
  forall query title : string,
    Utils.matches (Str.lower query) title = Utils.matches query title /\
    Utils.matches query (Str.lower title) = Utils.matches query title.
Proof.
  intros query title. unfold Utils.matches.
  fold (Spec.words query) (Spec.words title)
       (Spec.words (Str.lower query)) (Spec.words (Str.lower title)).
  now rewrite !words_lower.
Qed.

(** * Further properties of the comment preview *)

Lemma nonempty_some (text : option string) (t : string) :
  Utils.nonempty text = Some t -> text = Some t /\ t <> EmptyString.
Proof.
  destruct text as [[|c r]|]; simpl; try discriminate.
  intros H. injection H as <-. split; [reflexivity|discriminate].
Qed.

Lemma children_are_comments session parent c :
  In c (Spec.children session parent) ->
  In c (items session) /\ Item.type c = Some ItemType.comment.
Proof.
  unfold Spec.children. intros H. apply in_map_iff in H.
  destruct H as (r & <- & Hr).
  pose proof (ordered_comment_kids_rows session parent) as Hall.
  rewrite Forall_forall in Hall. specialize (Hall r Hr). tauto.
Qed.

Lemma preview_eq session story_id :
  Utils.get_comments_text session story_id = Spec.preview session story_id.
Proof.
  unfold Utils.get_comments_text, Spec.preview.
  rewrite fold_comment_step, comment_kids_10. reflexivity.
Qed.

(** X18: every fragment of a preview is the text, not empty, of an item of
    the store whose kind is [comment]. *)
Theorem get_comments_text_fragments :
  forall session story_id,
    Forall (fun t =>
              t <> EmptyString /\
              exists i, In i (items session) /\
                        Item.type i = Some ItemType.comment /\
                        Item.text i = Some t)
           (Utils.get_comments_text session story_id).
Proof.
  intros session story_id. rewrite preview_eq. unfold Spec.preview.
  apply Forall_forall. intros t Ht. apply in_flat_map in Ht.
  destruct Ht as (c & Hc & Ht). apply firstn_incl in Hc.
  apply children_are_comments in Hc. destruct Hc as [Hc Hk].
  unfold Spec.fragments in Ht.
  destruct (Utils.nonempty (Item.text c)) as [text|] eqn:E; [|destruct Ht].
  apply nonempty_some in E. destruct E as [E Hne].
  destruct Ht as [<-|Ht].
  - split; [exact Hne|]. exists c. tauto.
  - unfold Spec.first_child in Ht.
    destruct (hd_error (Spec.children session (Item.id c))) as [child|] eqn:Eh;
      [|destruct Ht].
    assert (Hchild : In child (Spec.children session (Item.id c))).
    { destruct (Spec.children session (Item.id c)); [discriminate|].
      injection Eh as ->. now left. }
    apply children_are_comments in Hchild. destruct Hchild as [Hin Hty].
    destruct (Utils.nonempty (Item.text child)) as [ct|] eqn:E';
      [|destruct Ht].
    apply nonempty_some in E'. destruct E' as [E' Hne'].
    destruct Ht as [<-|[]].
    split; [exact Hne'|]. exists child. tauto.
Qed.

Lemma flat_map_nil_iff {A B : Type} (f : A -> list B) (l : list A) :
  flat_map f l = [] <-> Forall (fun x => f x = []) l.
Proof.
  induction l as [|x r IH]; simpl.
  - split; [constructor|reflexivity].
  - split.
    + intros H. apply app_eq_nil in H. destruct H as [Hx Hr].
      constructor; [exact Hx|apply IH, Hr].
    + intros H. inversion H as [|? ? Hx Hr]; subst.
      rewrite Hx. apply IH, Hr.
Qed.

(** X19: a preview is empty exactly when none of the first ten comment
    children of the story has a text; in particular it is empty, and no
    error is raised, for a story without children and for an id that the
    store does not know. *)
Theorem get_comments_text_empty_iff :
  forall session story_id,
    (Utils.get_comments_text session story_id = [] <->
     Forall (fun c => Utils.nonempty (Item.text c) = None)
            (firstn 10 (Spec.children session story_id))) /\
    ((forall k, In k (kids session) -> Kids.item k <> Some story_id) ->
     Utils.get_comments_text session story_id = []).
Proof.
  intros session story_id.
  assert (Hiff : Utils.get_comments_text session story_id = [] <->
                 Forall (fun c => Utils.nonempty (Item.text c) = None)
                        (firstn 10 (Spec.children session story_id))).
  { rewrite preview_eq. unfold Spec.preview. rewrite flat_map_nil_iff.
    split; apply Forall_impl; intros c; unfold Spec.fragments;
      destruct (Utils.nonempty (Item.text c)); congruence. }
  split; [exact Hiff|].
  intros Hk. apply Hiff.
  assert (E : Spec.children session story_id = []).
  { unfold Spec.children.
    pose proof (ordered_comment_kids_rows session story_id) as Hall.
    destruct (Sql.ordered_comment_kids session story_id) as [|r rest];
      [reflexivity|].
    inversion Hall as [|? ? Hr _]; subst.
    destruct Hr as (Hitem & _ & _ & _ & Hin).
    exfalso. exact (Hk _ Hin Hitem). }
  rewrite E. constructor.
Qed.

(** * Further properties of the search *)

Local Open Scope Z_scope.

Lemma lstrip_list (s : string) :
  list_ascii_of_string (Str.lstrip s) =
  Chars.drop_spaces (list_ascii_of_string s).
Proof.
  induction s as [|c r IH]; simpl; [reflexivity|].
  destruct (Str.is_space c); [exact IH|reflexivity].
Qed.

Lemma strip_list_eq (s : string) :
  Str.strip s = string_of_list_ascii (Chars.strip_list (list_ascii_of_string s)).
Proof.
  unfold Str.strip, Str.reverse, Chars.strip_list.
  now rewrite !lstrip_list, list_ascii_of_string_of_list_ascii.
Qed.

Lemma drop_spaces_snoc (x : list ascii) (c : ascii) :
  Str.is_space c = false ->
  Chars.drop_spaces (x ++ [c]) = Chars.drop_spaces x ++ [c].
Proof.
  intros Hc. induction x as [|d r IH]; simpl.
  - now rewrite Hc.
  - destruct (Str.is_space d); [exact IH|reflexivity].
Qed.

Lemma drop_spaces_head (l : list ascii) :
  Chars.drop_spaces l = [] \/
  exists c r, Chars.drop_spaces l = c :: r /\ Str.is_space c = false.
Proof.
  induction l as [|d r IH]; simpl; [now left|].
  destruct (Str.is_space d) eqn:E; [exact IH|].
  right. exists d, r. split; [reflexivity|exact E].
Qed.

Lemma drop_spaces_idem (l : list ascii) :
  Chars.drop_spaces (Chars.drop_spaces l) = Chars.drop_spaces l.
Proof.
  destruct (drop_spaces_head l) as [E|(c & r & E & Hc)]; rewrite E.
  - reflexivity.
  - simpl. now rewrite Hc.
Qed.

Lemma strip_list_idem (l : list ascii) :
  Chars.strip_list (Chars.strip_list l) = Chars.strip_list l.
Proof.
  unfold Chars.strip_list.
  destruct (drop_spaces_head l) as [E|(c & r & E & Hc)]; rewrite E.
  - reflexivity.
  - cbn [rev]. rewrite (drop_spaces_snoc _ _ Hc), rev_app_distr. cbn [rev app].
    cbn [Chars.drop_spaces]. rewrite Hc.
    set (m := rev (Chars.drop_spaces (rev r))).
    cbn [rev]. rewrite (drop_spaces_snoc _ _ Hc), rev_app_distr. cbn [rev app].
    f_equal. subst m. now rewrite rev_involutive, drop_spaces_idem.
Qed.

Lemma strip_idem (s : string) : Str.strip (Str.strip s) = Str.strip s.
Proof.
  rewrite (strip_list_eq (Str.strip s)), (strip_list_eq s).
  now rewrite list_ascii_of_string_of_list_ascii, strip_list_idem.
Qed.

(** X20: the white space around the query plays no part in a search: the
    query is stripped before the provider and the ranking see it, stripping
    a stripped text changes nothing, and so the search for the stripped
    query is the search for the query. *)
Theorem semantic_search_ignores_padding :
  forall provider session query limit exclude_comments,
    Str.strip (Str.strip query) = Str.strip query /\
    Utils.semantic_search provider session (Str.strip query) limit
                          exclude_comments =
    Utils.semantic_search provider session query limit exclude_comments.
Proof.
  intros. split; [apply strip_idem|].
  unfold Utils.semantic_search. cbn zeta. now rewrite strip_idem.
Qed.

Lemma slice_to_nil {A : Type} (xs : list A) (n : Z) :
  n = 0 \/ n <= - Z.of_nat (List.length xs) -> Py.slice_to xs n = [].
Proof.
  intros H. unfold Py.slice_to. destruct (Z.ltb_spec n 0).
  - replace (Z.to_nat (Z.of_nat (List.length xs) + n)) with 0%nat by lia.
    reflexivity.
  - replace (Z.to_nat n) with 0%nat by lia. reflexivity.
Qed.

(** X21: when the ranking succeeds and the limit leaves none of it, which
    a limit of 0 does and a negative limit that drops every entry, the
    search does not return an empty list: [cursor] was never bound and
    [cursor.close()] raises [UnboundLocalError]. *)
Theorem semantic_search_empty_cut_raises :
  forall provider session query limit exclude_comments ranked,
    Utils.compute_rankings session (Str.strip query) (provider (Str.strip query))
    = Py.Ok ranked ->
    limit = 0 \/ limit <= - Z.of_nat (List.length ranked) ->
    Utils.semantic_search provider session query limit exclude_comments
    = Py.Raise Py.UnboundLocalError.
Proof.
  intros provider session query limit exclude_comments ranked Hrank Hlimit.
  unfold Utils.semantic_search. cbn zeta. rewrite Hrank. cbn [Py.bind].
  rewrite (slice_to_nil ranked limit Hlimit). reflexivity.
Qed.

(** X22: while the store does not change during a search, a positive limit
    gives the first [limit] entries of the ranking, in the order of the
    ranking: the ids of the stories returned are the ids of these entries,
    and there are [limit] of them, or as many as the ranking has. *)
Theorem semantic_search_returns_top_ranked :
  forall provider session query limit exclude_comments ranked,
    Utils.compute_rankings session (Str.strip query) (provider (Str.strip query))
    = Py.Ok ranked ->
    0 < limit ->
    exists stories,
      Utils.semantic_search provider session query limit exclude_comments
      = Py.Ok stories /\
      map (fun s => Item.id (Utils.story s)) stories =
        map snd (firstn (Z.to_nat limit) ranked) /\
      Z.of_nat (List.length stories)
      = Z.min limit (Z.of_nat (List.length ranked)).
Proof.
  intros provider session query limit exclude_comments ranked Hrank Hpos.
  pose proof (ranked_ids_have_rows _ _ _ _ Hrank) as Hrows.
  assert (Hne : ranked <> []).
  { intros ->. exact (compute_rankings_not_empty _ _ _ Hrank). }
  assert (Etop : Py.slice_to ranked limit = firstn (Z.to_nat limit) ranked).
  { unfold Py.slice_to. destruct (Z.ltb_spec limit 0); [lia|reflexivity]. }
  set (top := firstn (Z.to_nat limit) ranked).
  exists (flat_map (Spec.enriched session exclude_comments) (map snd top)).
  assert (Hids : map (fun s => Item.id (Utils.story s))
                     (flat_map (Spec.enriched session exclude_comments)
                               (map snd top)) = map snd top).
  { rewrite enriched_ids. apply forallb_filter_id.
    apply forallb_forall. intros id Hid.
    apply in_map_iff in Hid. destruct Hid as (p & <- & Hp).
    rewrite Forall_forall in Hrows. apply Hrows.
    apply firstn_incl in Hp. exact Hp. }
  split; [|split].
  - unfold Utils.semantic_search. cbn zeta. rewrite Hrank. cbn [Py.bind].
    rewrite Etop, fetch_stories_spec. fold top.
    destruct top as [|p rest] eqn:E; [|reflexivity].
    exfalso. subst top. destruct ranked as [|q r]; [congruence|].
    replace (Z.to_nat limit) with (S (Z.to_nat limit - 1)) in E by lia.
    discriminate.
  - exact Hids.
  - rewrite <- (length_map (fun s => Item.id (Utils.story s))), Hids.
    rewrite length_map. subst top. rewrite length_firstn. lia.
Qed.

Lemma enriched_comment_text (session : Session) (exclude_comments : bool)
      (ids : list Z) :
  Forall (fun s =>
            Utils.comment_text s =
            if exclude_comments then None
            else Some (Utils.get_comments_text session (Item.id (Utils.story s))))
         (flat_map (Spec.enriched session exclude_comments) ids).
Proof.
  apply Forall_forall. intros s Hs. apply in_flat_map in Hs.
  destruct Hs as (id & _ & Hs). unfold Spec.enriched in Hs.
  destruct (find _ (items session)) as [row|] eqn:E; [|destruct Hs].
  destruct Hs as [<-|[]]. cbn.
  apply find_some in E. destruct E as [_ E]. apply Z.eqb_eq in E.
  now rewrite E.
Qed.

(** X23: the flag [exclude_comments] decides the comment preview of every
    story of an answer: with the flag no story has one, and without it
    every story has the preview that [get_comments_text] gives for its
    id. *)
Theorem semantic_search_comment_previews :
  forall provider session query limit exclude_comments stories,
    Utils.semantic_search provider session query limit exclude_comments
    = Py.Ok stories ->
    Forall (fun s =>
              Utils.comment_text s =
              if exclude_comments then None
              else Some (Utils.get_comments_text session
                           (Item.id (Utils.story s))))
           stories.
Proof.
  intros provider session query limit exclude_comments stories H.
  unfold Utils.semantic_search in H. cbn zeta in H.
  destruct (Utils.compute_rankings _ _ _) as [ranked|]; [|discriminate].
  cbn [Py.bind] in H. rewrite fetch_stories_spec in H.
  destruct (Py.slice_to ranked limit) as [|p rest]; [discriminate|].
  injection H as <-.
  apply (enriched_comment_text session exclude_comments (map snd (p :: rest))).
Qed.

(** * The cached schema *)

(** X24: the schema is generated once: after a call of [set_schema] that
    returned a schema that is not empty, every later call returns that
    same schema and leaves the application as it is, whatever [get_schema]
    would compute then. *)
Theorem set_schema_cached :
  forall (V R : Type) (get_schema get_schema' : App.t V R -> App.Schema V)
         (app : App.t V R),
    fst (App.set_schema V R get_schema app) <> [] ->
    App.set_schema V R get_schema' (snd (App.set_schema V R get_schema app)) =
    App.set_schema V R get_schema app /\
    App.openapi_schema V R (snd (App.set_schema V R get_schema app)) =
    Some (fst (App.set_schema V R get_schema app)).
Proof.
  intros V R get_schema get_schema' app Hne.
  unfold App.set_schema in *.
  destruct (App.openapi_schema V R app) as [[|entry entries]|] eqn:E.
  - cbn in *. destruct (get_schema app); [congruence|]. split; reflexivity.
  - cbn. rewrite E. split; reflexivity.
  - cbn in *. destruct (get_schema app); [congruence|]. split; reflexivity.
Qed.

(** * The further properties on concrete inputs *)

Lemma get_items_contradictory_bounds_witness :
  5 < 10 /\
  Utils.get_items Examples.contains Examples.many_stories
    (Some ItemType.story) None None None (Some 10) (Some 5) None None
    None None 0 10 None = [] /\
  Utils.get_items Examples.contains Examples.many_stories
    (Some ItemType.story) None (Some 5) (Some 10) None None None None
    None None 0 10 None = [] /\
  Utils.get_items Examples.contains Examples.many_stories
    (Some ItemType.story) None None None None None (Some 10) (Some 5)
    None None 0 10 None = [].
Proof.
  split; [lia|].
  apply (get_items_contradictory_bounds Examples.contains Examples.many_stories
           (Some ItemType.story) None None None 0 10 None 10 5 None None None None).
  lia.
Defined.

Lemma get_items_pages_join_witness :
  0 <= 2 /\ 0 <= 3 /\ 0 <= 4 /\ 3 + 4 <= 50 /\
  Utils.get_items Examples.contains Examples.many_stories
    (Some ItemType.story) None None None None None None None
    (Some SortBy.score) (Some Order.desc) 2 3 None ++
  Utils.get_items Examples.contains Examples.many_stories
    (Some ItemType.story) None None None None None None None
    (Some SortBy.score) (Some Order.desc) (2 + 3) 4 None =
  Utils.get_items Examples.contains Examples.many_stories
    (Some ItemType.story) None None None None None None None
    (Some SortBy.score) (Some Order.desc) 2 (3 + 4) None.
Proof.
  split; [lia|]. split; [lia|]. split; [lia|]. split; [lia|].
  apply (get_items_pages_join Examples.contains Examples.many_stories);
    lia.
Defined.

Lemma rust_session_ids_distinct :
  NoDup (map Item.id (items Examples.rust_session)).
Proof.
  cbn. repeat constructor; cbn; intuition discriminate.
Qed.

Lemma get_items_no_duplicates_witness :
  NoDup (map Item.id (items Examples.rust_session)) /\
  NoDup (map Item.id
           (Utils.get_items Examples.contains Examples.rust_session
              (Some ItemType.story) None None None None None None None
              (Some SortBy.time) (Some Order.asc) 0 10 None)).
Proof.
  split; [exact rust_session_ids_distinct|].
  apply (get_items_no_duplicates Examples.contains Examples.rust_session).
  exact rust_session_ids_distinct.
Defined.



Lemma compute_rankings_missing_row_raises_witness :
  In (99, (1 # 10)%Q) Cases.unknown_candidates /\
  Spec.has_row Examples.rust_session 99 = false /\
  Utils.compute_rankings Examples.rust_session Examples.rust_query
                         Cases.unknown_candidates
  = Py.Raise Py.TypeError.
Proof.
  split; [cbn; tauto|]. split; [reflexivity|].
  apply (compute_rankings_missing_row_raises Examples.rust_session
           Examples.rust_query Cases.unknown_candidates 99 (1 # 10)%Q).
  - cbn; tauto.
  - reflexivity.
Defined.

Lemma single_row_constant :
  Signal.constant (map Spec.row_score [Cases.single_row]).
Proof.
  intros x y [<-|[]] [<-|[]]. apply Qeq_refl.
Qed.

Lemma compute_rankings_degenerate_signal_witness :
  Utils.expand Examples.rust_session Cases.single_candidate
  = Py.Ok [Cases.single_row] /\
  [Cases.single_row] <> [] /\
  (Signal.constant (map Spec.row_score [Cases.single_row]) \/
   Signal.constant (map Spec.row_age [Cases.single_row]) \/
   Signal.constant (map Spec.row_distance [Cases.single_row])) /\
  Utils.compute_rankings Examples.rust_session Examples.rust_query
                         Cases.single_candidate
  = Py.Raise Py.ZeroDivisionError.
Proof.
  split; [reflexivity|]. split; [discriminate|].
  split; [left; exact single_row_constant|].
  apply (compute_rankings_degenerate_signal Examples.rust_session
           Examples.rust_query Cases.single_candidate [Cases.single_row]).
  - reflexivity.
  - discriminate.
  - left. exact single_row_constant.
Defined.

Lemma compute_rankings_ranks_titled_candidates_witness :
  Utils.compute_rankings Examples.rust_session Examples.rust_query
                         Examples.rust_candidates
  = Py.Ok Examples.rust_ranking /\
  Permutation (map snd Examples.rust_ranking)
    (map fst (filter (fun c => Ranking.titled Examples.rust_session (fst c))
                     Examples.rust_candidates)) /\
  Forall (fun c => Spec.has_row Examples.rust_session (fst c) = true)
         Examples.rust_candidates.
Proof.
  split; [vm_compute; reflexivity|].
  apply (compute_rankings_ranks_titled_candidates Examples.rust_session
           Examples.rust_query Examples.rust_candidates Examples.rust_ranking).
  vm_compute; reflexivity.
Defined.



Lemma semantic_search_empty_cut_raises_witness :
  Utils.compute_rankings Examples.rust_session (Str.strip Examples.rust_query)
                         (Examples.rust_provider (Str.strip Examples.rust_query))
  = Py.Ok Examples.rust_ranking /\
  (0 = 0 \/ 0 <= - Z.of_nat (List.length Examples.rust_ranking)) /\
  Utils.semantic_search Examples.rust_provider Examples.rust_session
                        Examples.rust_query 0 false
  = Py.Raise Py.UnboundLocalError.
Proof.
  split; [vm_compute; reflexivity|]. split; [now left|].
  apply (semantic_search_empty_cut_raises Examples.rust_provider
           Examples.rust_session Examples.rust_query 0 false
           Examples.rust_ranking).
  - vm_compute; reflexivity.
  - now left.
Defined.

Lemma semantic_search_returns_top_ranked_witness :
  Utils.compute_rankings Examples.rust_session (Str.strip Examples.rust_query)
                         (Examples.rust_provider (Str.strip Examples.rust_query))
  = Py.Ok Examples.rust_ranking /\
  0 < 2 /\
  exists stories,
    Utils.semantic_search Examples.rust_provider Examples.rust_session
                          Examples.rust_query 2 true = Py.Ok stories /\
    map (fun s => Item.id (Utils.story s)) stories =
      map snd (firstn (Z.to_nat 2) Examples.rust_ranking) /\
    Z.of_nat (List.length stories)
    = Z.min 2 (Z.of_nat (List.length Examples.rust_ranking)).
Proof.
  split; [vm_compute; reflexivity|]. split; [lia|].
  apply (semantic_search_returns_top_ranked Examples.rust_provider
           Examples.rust_session Examples.rust_query 2 true
           Examples.rust_ranking).
  - vm_compute; reflexivity.
  - lia.
Defined.

Lemma semantic_search_comment_previews_witness :
  Utils.semantic_search Examples.rust_provider Examples.rust_session
                        Examples.rust_query 2 false
  = Py.Ok (Cases.rust_stories 2 false) /\
  Forall (fun s =>
            Utils.comment_text s =
            if false then None
            else Some (Utils.get_comments_text Examples.rust_session
                         (Item.id (Utils.story s))))
         (Cases.rust_stories 2 false).
Proof.
  split; [vm_compute; reflexivity|].
  apply (semantic_search_comment_previews Examples.rust_provider
           Examples.rust_session Examples.rust_query 2 false
           (Cases.rust_stories 2 false)).
  vm_compute; reflexivity.
Defined.

Lemma set_schema_cached_witness :
  fst (App.set_schema string unit Cases.a_schema Cases.fresh_app) <> [] /\
  App.set_schema string unit Cases.no_schema
    (snd (App.set_schema string unit Cases.a_schema Cases.fresh_app)) =
  App.set_schema string unit Cases.a_schema Cases.fresh_app /\
  App.openapi_schema string unit
    (snd (App.set_schema string unit Cases.a_schema Cases.fresh_app)) =
  Some (fst (App.set_schema string unit Cases.a_schema Cases.fresh_app)).
Proof.
  split; [discriminate|].
  apply (set_schema_cached string unit Cases.a_schema Cases.no_schema
           Cases.fresh_app).
  discriminate.
Defined.

(** A schema that is empty is not kept: it is generated again. *)
Lemma set_schema_empty_not_cached :
  App.set_schema string unit Cases.a_schema
    (snd (App.set_schema string unit Cases.no_schema Cases.fresh_app)) =
  (Cases.a_schema Cases.fresh_app,
   App.mk string unit tt (Some (Cases.a_schema Cases.fresh_app))).
Proof. reflexivity. Qed.

(** * What a ranking does not depend on *)

Section SortUpTo.
Context {A : Type} (lt : A -> A -> bool) (eqv : A -> A -> Prop).

Hypothesis eqv_refl : forall a, eqv a a.
Hypothesis eqv_sym : forall a b, eqv a b -> eqv b a.
Hypothesis eqv_trans : forall a b c, eqv a b -> eqv b c -> eqv a c.
Hypothesis lt_eqv : forall a a' b b', eqv a a' -> eqv b b' -> lt a b = lt a' b'.
Hypothesis lt_asym : forall a b, lt a b = true -> lt b a = false.
Hypothesis lt_between :
  forall x y z, lt z x = false -> lt z y = true -> lt x y = true.
Hypothesis lt_tie : forall a b, lt a b = false -> lt b a = false -> eqv a b.







End SortUpTo.

Local Open Scope Q_scope.






























